(** * Schedules module: business hours, special days and overrides

    A shallow embedding of the scheduling core of the [schedules] module
    ([models.py] and [views.py]): the validation hooks ([clean]) of the
    three models, [BusinessHours.is_open_at], the slot generator
    [BusinessHours.get_slots], the JSON status view [is_open_now] and the
    status computation of the [dashboard] view.

    Clock times and calendar dates are Python [datetime.time] and
    [datetime.date] values; they are embedded as records of integers
    together with the range checks of their constructors. *)

From Stdlib Require Import ZArith Lia.
From stdpp Require Import base tactics option list strings sorting gmap.

Local Open Scope Z_scope.

(** ** Python values *)

(** Exceptions that the embedded code can raise. *)
Inductive exn : Type :=
  | ValueError
  | OverflowError
  | MultipleObjectsReturned.

(** Result of running a piece of Python code: it returns, it raises, or
    (for the loop of [get_slots] only) the iteration budget given to the
    embedding ran out before the loop ended. *)
Inductive outcome (A : Type) : Type :=
  | Returned (a : A)
  | Raised (e : exn)
  | OutOfFuel.
Arguments Returned {A} a.
Arguments Raised {A} e.
Arguments OutOfFuel {A}.

(** [datetime.time]: naive clock time. *)
Record time : Type := Time {
  hour : Z;
  minute : Z;
  second : Z;
  microsecond : Z
}.

(** The ranges enforced by the constructor of [datetime.time]; every time
    value that exists at run time satisfies them. *)
Definition time_wf (t : time) : Prop :=
  0 <= hour t < 24 /\ 0 <= minute t < 60 /\
  0 <= second t < 60 /\ 0 <= microsecond t < 1000000.

(** [time(h, m)]: seconds and microseconds default to zero; an argument
    out of range raises [ValueError]. *)
Definition mk_time (h m : Z) : option time :=
  if (0 <=? h) && (h <? 24) && (0 <=? m) && (m <? 60)
  then Some (Time h m 0 0) else None.

(** Comparison of two times is the comparison of the tuples
    [(hour, minute, second, microsecond)]. *)
Definition lex (c1 c2 : comparison) : comparison :=
  match c1 with Eq => c2 | _ => c1 end.

Definition time_cmp (a b : time) : comparison :=
  lex (hour a ?= hour b)
   (lex (minute a ?= minute b)
     (lex (second a ?= second b) (microsecond a ?= microsecond b))).

Definition time_ltb (a b : time) : bool :=
  match time_cmp a b with Lt => true | _ => false end.

Definition time_leb (a b : time) : bool :=
  match time_cmp a b with Gt => false | _ => true end.

(** [a >= b] on times. *)
Definition time_geb (a b : time) : bool := time_leb b a.
Definition time_gtb (a b : time) : bool := time_ltb b a.

(** Truth value of an optional time ([None] or a [datetime.time]) in a
    boolean context.  The module is written with f-strings, so it runs on
    Python 3.6 or later, where [datetime.time] defines no [__bool__]:
    every time object, midnight included, is true, and only [None] is
    false. *)
Definition truthy (o : option time) : bool :=
  match o with Some _ => true | None => false end.

(** [timedelta(minutes=m)] for an integer [m]: the value is normalised to
    days, seconds and microseconds, and the constructor raises
    [OverflowError] unless the days lie between -999999999 and
    999999999. *)
Definition timedelta_fits (minutes : Z) : bool :=
  (-999999999 <=? minutes `div` 1440) && (minutes `div` 1440 <=? 999999999).

(** Microseconds since midnight; used in proofs only. *)
Definition us_of (t : time) : Z :=
  ((hour t * 60 + minute t) * 60 + second t) * 1000000 + microsecond t.

(** [datetime.date]. *)
Record date : Type := Date {
  year : Z;
  month : Z;
  day : Z
}.

Definition date_cmp (a b : date) : comparison :=
  lex (year a ?= year b) (lex (month a ?= month b) (day a ?= day b)).

Definition date_leb (a b : date) : bool :=
  match date_cmp a b with Gt => false | _ => true end.

Definition date_eqb (a b : date) : bool :=
  match date_cmp a b with Eq => true | _ => false end.

Definition date_gtb (a b : date) : bool :=
  match date_cmp a b with Gt => true | _ => false end.

(** [date.weekday()]: Monday is 0 and Sunday is 6.  It is the proleptic
    Gregorian ordinal of the date, shifted, modulo 7. *)
Definition is_leap (y : Z) : bool :=
  (y mod 4 =? 0) && (negb (y mod 100 =? 0) || (y mod 400 =? 0)).

Definition days_before_year (y : Z) : Z :=
  let y' := y - 1 in y' * 365 + y' / 4 - y' / 100 + y' / 400.

Definition days_in_month (y m : Z) : Z :=
  if m =? 2 then (if is_leap y then 29 else 28)
  else if (m =? 4) || (m =? 6) || (m =? 9) || (m =? 11) then 30
  else 31.

Definition days_before_month (y m : Z) : Z :=
  foldr (fun k acc => days_in_month y k + acc) 0 (seqZ 1 (m - 1)).

Definition toordinal (d : date) : Z :=
  days_before_year (year d) + days_before_month (year d) (month d) + day d.

Definition weekday (d : date) : Z := (toordinal d + 6) mod 7.


(** ** Models ([models.py]) *)

(** Tenant scope of a row; the base model that declares it is outside this
    module, so the identifiers are taken as numbers. *)
Definition hub := N.

(** [ValidationError], with the message of the failing rule. *)
Inductive validation : Type :=
  | Valid
  | ValidationError (message : string).

Module ScheduleSettings.

Record t : Type := Build {
  hub_id : hub;
  timezone : string;
  week_starts_on : Z;
  slot_duration : Z;
  auto_close_enabled : bool
}.

End ScheduleSettings.

Module BusinessHours.

Record t : Type := Build {
  hub_id : hub;
  is_deleted : bool;
  day_of_week : Z;
  open_time : time;
  close_time : time;
  is_closed : bool;
  break_start : option time;
  break_end : option time
}.

(** The guard [if self.break_start and self.break_end:] shared by
    [clean], [is_open_at] and [get_slots]: the two ends of the break
    when both are true in a boolean context. *)
Definition break_window (self : t) : option (time * time) :=
  if truthy (break_start self) && truthy (break_end self) then
    match break_start self, break_end self with
    | Some bs, Some be => Some (bs, be)
    | _, _ => None
    end
  else None.

(** [BusinessHours.clean].  [super().clean()] is the hook of the base
    model and checks nothing. *)
Definition clean (self : t) : validation :=
  if negb (is_closed self) then
    if truthy (Some (open_time self)) && truthy (Some (close_time self))
       && time_geb (open_time self) (close_time self)
    then ValidationError "Open time must be before close time."
    else
      match break_window self with
      | Some (bs, be) =>
          if time_geb bs be
          then ValidationError "Break start must be before break end."
          else if truthy (Some (open_time self)) && time_ltb bs (open_time self)
          then ValidationError "Break start must be after open time."
          else if truthy (Some (close_time self)) && time_gtb be (close_time self)
          then ValidationError "Break end must be before close time."
          else Valid
      | None => Valid
      end
  else Valid.

(** [BusinessHours.is_open_at] *)
Definition is_open_at (self : t) (check_time : time) : bool :=
  if is_closed self then false
  else if negb (time_leb (open_time self) check_time
                && time_ltb check_time (close_time self)) then false
  else
    match break_window self with
    | Some (bs, be) =>
        if time_leb bs check_time && time_ltb check_time be then false
        else true
    | None => true
    end.

(** One pass through the body of the [while] loop of [get_slots]. *)
Inductive step : Type :=
  | Continue (current : time) (slots : list time)
  | Break (slots : list time)
  | Raise (e : exn).

(** [slots.append(current)] and the advance by [duration] minutes.  The
    unused [dt = timedelta(minutes=duration)] is evaluated first and can
    raise. *)
Definition emit_and_advance (duration : Z)
    (current : time) (slots : list time) : step :=
  let slots := slots ++ [current] in
  if negb (timedelta_fits duration) then Raise OverflowError
  else
    let total_minutes := hour current * 60 + minute current + duration in
    let new_hour := total_minutes `div` 60 in
    let new_minute := total_minutes `mod` 60 in
    if 24 <=? new_hour then Break slots
    else match mk_time new_hour new_minute with
         | Some current' => Continue current' slots
         | None => Raise ValueError
         end.

Definition loop_body (self : t) (duration : Z)
    (current : time) (slots : list time) : step :=
  match break_window self with
  | Some (bs, be) =>
      if time_leb bs current && time_ltb current be
      then Continue be slots
      else emit_and_advance duration current slots
  | None => emit_and_advance duration current slots
  end.

(** [while current < self.close_time: ...], with an iteration budget. *)
Fixpoint while_loop (fuel : nat) (self : t) (duration : Z)
    (current : time) (slots : list time) : outcome (list time) :=
  match fuel with
  | O => OutOfFuel
  | S fuel' =>
      if time_ltb current (close_time self) then
        match loop_body self duration current slots with
        | Continue current' slots' =>
            while_loop fuel' self duration current' slots'
        | Break slots' => Returned slots'
        | Raise e => Raised e
        end
      else Returned slots
  end.

(** [BusinessHours.get_slots].  [settings] is the result of
    [ScheduleSettings.get_settings(self.hub_id)]: [None] stands for the
    call raising, which the [except] clause turns into 30 minutes. *)
Definition get_slots (fuel : nat) (settings : option ScheduleSettings.t)
    (self : t) : outcome (list time) :=
  if is_closed self then Returned []
  else
    let duration :=
      match settings with
      | Some s => ScheduleSettings.slot_duration s
      | None => 30
      end in
    while_loop fuel self duration (open_time self) [].

End BusinessHours.

Module SpecialDay.

Record t : Type := Build {
  hub_id : hub;
  is_deleted : bool;
  date_ : date;
  name : string;
  is_closed : bool;
  open_time : option time;
  close_time : option time;
  recurring_yearly : bool;
  notes : string
}.

(** [SpecialDay.clean] *)
Definition clean (self : t) : validation :=
  if negb (is_closed self) then
    if negb (truthy (open_time self)) || negb (truthy (close_time self))
    then ValidationError
           "Open time and close time are required when the day is not fully closed."
    else match open_time self, close_time self with
         | Some o, Some c =>
             if time_geb o c
             then ValidationError "Open time must be before close time."
             else Valid
         | _, _ => Valid
         end
  else Valid.

End SpecialDay.

Module ScheduleOverride.

Record t : Type := Build {
  hub_id : hub;
  is_deleted : bool;
  start_date : date;
  end_date : date;
  reason : string;
  open_time : option time;
  close_time : option time;
  is_closed : bool
}.

(** [ScheduleOverride.clean]: "Validate that start_date <= end_date."
    The two dates are mandatory columns, and a date is always true in a
    boolean context, so the guard [if self.start_date and self.end_date]
    holds. *)
Definition clean (self : t) : validation :=
  if date_gtb (start_date self) (end_date self)
  then ValidationError "Start date must be on or before end date."
  else Valid.

End ScheduleOverride.

(** ** Stored rows and queries *)

(** The tables of the three models.  Soft-deleted rows stay in the tables
    with [is_deleted] set. *)
Record database : Type := Database {
  business_hours : list BusinessHours.t;
  special_days : list SpecialDay.t;
  overrides : list ScheduleOverride.t
}.

(** [Meta.ordering] of the three models: [day_of_week], [date] and
    [-start_date]. *)
Definition by_day_of_week (a b : BusinessHours.t) : Prop :=
  BusinessHours.day_of_week a <= BusinessHours.day_of_week b.

Definition by_date (a b : SpecialDay.t) : Prop :=
  date_leb (SpecialDay.date_ a) (SpecialDay.date_ b) = true.

Definition by_start_date_desc (a b : ScheduleOverride.t) : Prop :=
  date_leb (ScheduleOverride.start_date b) (ScheduleOverride.start_date a) = true.

#[global] Instance by_day_of_week_dec a b : Decision (by_day_of_week a b).
Proof. unfold by_day_of_week. apply _. Defined.

#[global] Instance by_date_dec a b : Decision (by_date a b).
Proof. unfold by_date. apply _. Defined.

#[global] Instance by_start_date_desc_dec a b : Decision (by_start_date_desc a b).
Proof. unfold by_start_date_desc. apply _. Defined.

(** [QuerySet.first()]: the first row in the model's ordering, or [None].
    Rows that tie in the ordering come in the order the sort leaves them;
    the database leaves that order open. *)
Definition first {A : Type} (R : relation A) `{!∀ x y, Decision (R x y)}
    (rows : list A) : option A :=
  head (merge_sort R rows).

(** [Manager.get(...)]: the single matching row; [DoesNotExist] and
    [MultipleObjectsReturned] otherwise. *)
Inductive got (A : Type) : Type :=
  | Got (row : A)
  | DoesNotExist
  | Multiple.
Arguments Got {A} row.
Arguments DoesNotExist {A}.
Arguments Multiple {A}.

Definition get {A : Type} (rows : list A) : got A :=
  match rows with
  | [] => DoesNotExist
  | [row] => Got row
  | _ :: _ :: _ => Multiple
  end.

(** The four queries of the views. *)
Definition override_rows (db : database) (h : hub) (today : date)
    : list ScheduleOverride.t :=
  filter (λ o, bool_decide (ScheduleOverride.hub_id o = h)
               && negb (ScheduleOverride.is_deleted o)
               && date_leb (ScheduleOverride.start_date o) today
               && date_leb today (ScheduleOverride.end_date o) = true)
         (overrides db).

Definition special_rows (db : database) (h : hub) (today : date)
    : list SpecialDay.t :=
  filter (λ s, bool_decide (SpecialDay.hub_id s = h)
               && negb (SpecialDay.is_deleted s)
               && date_eqb (SpecialDay.date_ s) today = true)
         (special_days db).

Definition recurring_rows (db : database) (h : hub) (today : date)
    : list SpecialDay.t :=
  filter (λ s, bool_decide (SpecialDay.hub_id s = h)
               && negb (SpecialDay.is_deleted s)
               && SpecialDay.recurring_yearly s
               && (month (SpecialDay.date_ s) =? month today)
               && (day (SpecialDay.date_ s) =? day today) = true)
         (special_days db).

Definition hours_rows (db : database) (h : hub) (wd : Z)
    : list BusinessHours.t :=
  filter (λ b, bool_decide (BusinessHours.hub_id b = h)
               && negb (BusinessHours.is_deleted b)
               && (BusinessHours.day_of_week b =? wd) = true)
         (business_hours db).

Definition find_override (db : database) (h : hub) (today : date) :=
  first by_start_date_desc (override_rows db h today).

Definition find_special (db : database) (h : hub) (today : date) :=
  first by_date (special_rows db h today).

Definition find_recurring (db : database) (h : hub) (today : date) :=
  first by_date (recurring_rows db h today).

(** ** Views ([views.py]) *)

(** The [status] dictionary of [is_open_now].  [today] and [current_time]
    hold the values that the view renders as text ([%H:%M] keeps the hour
    and the minute). *)
Record status : Type := Status {
  is_open : bool;
  reason : string;
  today_ : date;
  current_time : Z * Z
}.

Definition set_is_open (b : bool) (st : status) : status :=
  Status b (reason st) (today_ st) (current_time st).

Definition set_reason (r : string) (st : status) : status :=
  Status (is_open st) r (today_ st) (current_time st).

(** Control after one of the blocks of [is_open_now]: the view has
    returned its response, or it goes on to the next block. *)
Inductive flow : Type :=
  | Respond (st : status)
  | Next.

(** [is_open_now].  [h] is the tenant of the session; [today] and
    [now_time] are [timezone.localdate()] and
    [timezone.localtime().time()]. *)
Definition is_open_now (db : database) (h : hub) (today : date)
    (now_time : time) : outcome status :=
  let today_weekday := weekday today in
  let status := Status false "" today (hour now_time, minute now_time) in
  (* Check schedule override first (highest priority) *)
  let override := find_override db h today in
  match
    match override with
    | Some o =>
        if ScheduleOverride.is_closed o then
          Respond (set_reason (ScheduleOverride.reason o) status)
        else if truthy (ScheduleOverride.open_time o)
                && truthy (ScheduleOverride.close_time o) then
          match ScheduleOverride.open_time o, ScheduleOverride.close_time o with
          | Some ot, Some ct =>
              Respond (set_reason (ScheduleOverride.reason o)
                         (set_is_open (time_leb ot now_time && time_ltb now_time ct)
                            status))
          | _, _ => Next
          end
        else Next
    | None => Next
    end
  with
  | Respond st => Returned st
  | Next =>
  (* Check special day (second priority) *)
  let special := find_special db h today in
  match
    match special with
    | Some s =>
        if SpecialDay.is_closed s then
          Respond (set_reason (SpecialDay.name s) status)
        else if truthy (SpecialDay.open_time s)
                && truthy (SpecialDay.close_time s) then
          match SpecialDay.open_time s, SpecialDay.close_time s with
          | Some ot, Some ct =>
              Respond (set_reason (SpecialDay.name s)
                         (set_is_open (time_leb ot now_time && time_ltb now_time ct)
                            status))
          | _, _ => Next
          end
        else Next
    | None => Next
    end
  with
  | Respond st => Returned st
  | Next =>
  (* Check recurring special days *)
  let recurring := find_recurring db h today in
  match
    match recurring with
    | Some s =>
        if SpecialDay.is_closed s then
          Respond (set_reason (SpecialDay.name s) status)
        else if truthy (SpecialDay.open_time s)
                && truthy (SpecialDay.close_time s) then
          match SpecialDay.open_time s, SpecialDay.close_time s with
          | Some ot, Some ct =>
              Respond (set_reason (SpecialDay.name s)
                         (set_is_open (time_leb ot now_time && time_ltb now_time ct)
                            status))
          | _, _ => Next
          end
        else Next
    | None => Next
    end
  with
  | Respond st => Returned st
  | Next =>
  (* Fall back to regular business hours *)
  match get (hours_rows db h today_weekday) with
  | Got hours =>
      let status := set_is_open (BusinessHours.is_open_at hours now_time) status in
      if BusinessHours.is_closed hours then
        Returned (set_reason "Closed today" status)
      else if is_open status then
        Returned (set_reason "Regular hours" status)
      else
        Returned (set_reason "Outside business hours" status)
  | DoesNotExist => Returned (set_reason "No hours configured" status)
  | Multiple => Raised MultipleObjectsReturned
  end
  end end end.

(** The part of the template context of [dashboard] that describes today. *)
Record context : Type := TodayContext {
  today_hours : option BusinessHours.t;
  ctx_is_open : bool;
  special_today : option SpecialDay.t;
  override_today : option ScheduleOverride.t
}.

(** [hours_by_day = {h.day_of_week: h for h in hours}]: a later row
    replaces an earlier one with the same key. *)
Definition hours_by_day (hours : list BusinessHours.t) : gmap Z BusinessHours.t :=
  foldl (λ m b, <[BusinessHours.day_of_week b := b]> m) ∅ hours.

(** [dashboard]: today's status. *)
Definition dashboard (db : database) (h : hub) (today : date)
    (now_time : time) : context :=
  let hours :=
    merge_sort by_day_of_week
      (filter (λ b, bool_decide (BusinessHours.hub_id b = h)
                    && negb (BusinessHours.is_deleted b) = true)
              (business_hours db)) in
  let today_weekday := weekday today in
  let today_hours := hours_by_day hours !! today_weekday in
  let is_open := false in
  let is_open :=
    match today_hours with
    | Some th =>
        if negb (BusinessHours.is_closed th)
        then BusinessHours.is_open_at th now_time
        else is_open
    | None => is_open
    end in
  (* Check for special day override *)
  let special_today := find_special db h today in
  let is_open :=
    match special_today with
    | Some s =>
        if SpecialDay.is_closed s then false
        else if truthy (SpecialDay.open_time s)
                && truthy (SpecialDay.close_time s) then
          match SpecialDay.open_time s, SpecialDay.close_time s with
          | Some ot, Some ct => time_leb ot now_time && time_ltb now_time ct
          | _, _ => is_open
          end
        else is_open
    | None => is_open
    end in
  (* Check for schedule override *)
  let override_today := find_override db h today in
  let is_open :=
    match override_today with
    | Some o =>
        if ScheduleOverride.is_closed o then false
        else if truthy (ScheduleOverride.open_time o)
                && truthy (ScheduleOverride.close_time o) then
          match ScheduleOverride.open_time o, ScheduleOverride.close_time o with
          | Some ot, Some ct => time_leb ot now_time && time_ltb now_time ct
          | _, _ => is_open
          end
        else is_open
    | None => is_open
    end in
  TodayContext today_hours is_open special_today override_today.

(** ** The behaviour the specification describes *)

(** One exception tier of the resolver, in the words of the specification:
    closed wins, then a full interval decides, otherwise the tier is
    transparent. *)
Definition tier (closed : bool) (open_t close_t : option time)
    (label : string) (instant : time) : option (bool * string) :=
  if closed then Some (false, label)
  else match open_t, close_t with
       | Some o, Some c => Some (time_leb o instant && time_ltb instant c, label)
       | _, _ => None
       end.

Definition override_tier (instant : time) (o : ScheduleOverride.t) :=
  tier (ScheduleOverride.is_closed o) (ScheduleOverride.open_time o)
       (ScheduleOverride.close_time o) (ScheduleOverride.reason o) instant.

Definition special_tier (instant : time) (s : SpecialDay.t) :=
  tier (SpecialDay.is_closed s) (SpecialDay.open_time s)
       (SpecialDay.close_time s) (SpecialDay.name s) instant.

(** Tier 4: the weekly entry of the weekday, if any. *)
Definition weekly_tier (instant : time) (entry : option BusinessHours.t)
    : bool * string :=
  match entry with
  | None => (false, "No hours configured")
  | Some e =>
      if BusinessHours.is_closed e then (false, "Closed today")
      else if BusinessHours.is_open_at e instant then (true, "Regular hours")
      else (false, "Outside business hours")
  end.

(** The four tiers in priority order; the first tier that decides wins. *)
Definition resolve (instant : time)
    (ov : option ScheduleOverride.t) (sp rc : option SpecialDay.t)
    (wk : option BusinessHours.t) : bool * string :=
  match ov ≫= override_tier instant with
  | Some r => r
  | None =>
      match sp ≫= special_tier instant with
      | Some r => r
      | None =>
          match rc ≫= special_tier instant with
          | Some r => r
          | None => weekly_tier instant wk
          end
      end
  end.

(** The response that carries an answer of the resolver. *)
Definition respond (today : date) (instant : time) (r : bool * string)
    : status :=
  Status r.1 r.2 today (hour instant, minute instant).

(** The weekly entry of a weekday: [entry_for(weekday)]. *)
Definition entry_for (db : database) (h : hub) (wd : Z) : option BusinessHours.t :=
  head (hours_rows db h wd).

(** [unique_together = [('hub_id', 'day_of_week')]] on the weekly table. *)
Definition unique_together (db : database) : Prop :=
  NoDup ((λ b, (BusinessHours.hub_id b, BusinessHours.day_of_week b))
           <$> business_hours db).

(** The rows that each tier of the resolver may use on a date. *)
Definition override_applies (h : hub) (d : date) (o : ScheduleOverride.t)
    : Prop :=
  ScheduleOverride.hub_id o = h
  ∧ ScheduleOverride.is_deleted o = false
  ∧ date_leb (ScheduleOverride.start_date o) d = true
  ∧ date_leb d (ScheduleOverride.end_date o) = true.

Definition special_exact (h : hub) (d : date) (s : SpecialDay.t) : Prop :=
  SpecialDay.hub_id s = h
  ∧ SpecialDay.is_deleted s = false
  ∧ SpecialDay.date_ s = d.

Definition special_recurs (h : hub) (d : date) (s : SpecialDay.t) : Prop :=
  SpecialDay.hub_id s = h
  ∧ SpecialDay.is_deleted s = false
  ∧ SpecialDay.recurring_yearly s = true
  ∧ month (SpecialDay.date_ s) = month d
  ∧ day (SpecialDay.date_ s) = day d.

Definition weekly_applies (h : hub) (wd : Z) (b : BusinessHours.t) : Prop :=
  BusinessHours.hub_id b = h
  ∧ BusinessHours.is_deleted b = false
  ∧ BusinessHours.day_of_week b = wd.

(** A position lies inside the break of an entry. *)
Definition inside_break (self : BusinessHours.t) (pos : time) : Prop :=
  ∃ bs be, BusinessHours.break_start self = Some bs
           ∧ BusinessHours.break_end self = Some be
           ∧ time_leb bs pos = true ∧ time_ltb pos be = true.

(** The slot sequence from a position, in the words of the specification. *)
Inductive slot_sequence (self : BusinessHours.t) (stride : Z)
    : time → list time → Prop :=
  | seq_stop pos :
      time_ltb pos (BusinessHours.close_time self) = false →
      slot_sequence self stride pos []
  | seq_skip pos bs be l :
      time_ltb pos (BusinessHours.close_time self) = true →
      BusinessHours.break_start self = Some bs →
      BusinessHours.break_end self = Some be →
      time_leb bs pos = true → time_ltb pos be = true →
      slot_sequence self stride be l →
      slot_sequence self stride pos l
  | seq_midnight pos :
      time_ltb pos (BusinessHours.close_time self) = true →
      ¬ inside_break self pos →
      24 * 60 <= hour pos * 60 + minute pos + stride →
      slot_sequence self stride pos [pos]
  | seq_emit pos l :
      time_ltb pos (BusinessHours.close_time self) = true →
      ¬ inside_break self pos →
      0 <= hour pos * 60 + minute pos + stride < 24 * 60 →
      slot_sequence self stride
        (Time ((hour pos * 60 + minute pos + stride) `div` 60)
              ((hour pos * 60 + minute pos + stride) `mod` 60) 0 0) l →
      slot_sequence self stride pos (pos :: l).

(** The stride that [get_slots] reads from the settings. *)
Definition stride_of (settings : option ScheduleSettings.t) : Z :=
  match settings with
  | Some s => ScheduleSettings.slot_duration s
  | None => 30
  end.

(** All times stored in a weekly entry are [datetime.time] values. *)
Definition entry_wf (self : BusinessHours.t) : Prop :=
  time_wf (BusinessHours.open_time self)
  ∧ time_wf (BusinessHours.close_time self)
  ∧ (∀ bs, BusinessHours.break_start self = Some bs → time_wf bs)
  ∧ (∀ be, BusinessHours.break_end self = Some be → time_wf be).

(** The largest number of minutes that [timedelta] accepts. *)
Definition max_stride : Z := 1439999999999.

(** Iterations that always suffice for a positive stride. *)
Definition enough_fuel : nat := Z.to_nat 2882.

(** The quantity that decreases along the loop of [get_slots] when the
    stride is positive: the minutes left in the day, counted twice, plus
    one when the position still has to leave the break. *)
Definition minute_of_day (x : time) : Z := hour x * 60 + minute x.

Definition in_break (self : BusinessHours.t) (x : time) : bool :=
  match BusinessHours.break_window self with
  | Some (bs, be) => time_leb bs x && time_ltb x be
  | None => false
  end.

Definition remaining (self : BusinessHours.t) (x : time) : Z :=
  2 * (24 * 60 - minute_of_day x) + (if in_break self x then 1 else 0).

(** ** Sample data *)

Definition at_ (h m : Z) : time := Time h m 0 0.

Definition settings_with (minutes : Z) : option ScheduleSettings.t :=
  Some (ScheduleSettings.Build 1%N "Europe/Madrid" 1 minutes false).

(** Monday 09:00-18:00 with a break 13:00-14:00. *)
Definition monday_hours : BusinessHours.t :=
  BusinessHours.Build 1%N false 0 (at_ 9 0) (at_ 18 0) false
    (Some (at_ 13 0)) (Some (at_ 14 0)).

(** Monday 09:00-12:00 without a break. *)
Definition morning_hours : BusinessHours.t :=
  BusinessHours.Build 1%N false 0 (at_ 9 0) (at_ 12 0) false None None.

(** Closed Sunday with stored times in the wrong order. *)
Definition closed_sunday : BusinessHours.t :=
  BusinessHours.Build 1%N false 6 (at_ 18 0) (at_ 9 0) true None None.

(** Thursday, Friday and Saturday 09:00-18:00. *)
Definition thursday_hours : BusinessHours.t :=
  BusinessHours.Build 1%N false 3 (at_ 9 0) (at_ 18 0) false None None.

Definition friday_hours : BusinessHours.t :=
  BusinessHours.Build 1%N false 4 (at_ 9 0) (at_ 18 0) false None None.

Definition saturday_hours : BusinessHours.t :=
  BusinessHours.Build 1%N false 5 (at_ 9 0) (at_ 18 0) false None None.

(** Christmas, closed, recurring every year. *)
Definition christmas : SpecialDay.t :=
  SpecialDay.Build 1%N false (Date 2026 12 25) "Christmas" true None None true
    "Merry Christmas!".

(** A closed holiday without times. *)
Definition holiday : SpecialDay.t :=
  SpecialDay.Build 1%N false (Date 2026 6 15) "Holiday" true None None false "".

(** A special day that is open 10:00-14:00. *)
Definition open_day : SpecialDay.t :=
  SpecialDay.Build 1%N false (Date 2026 12 25) "Open day" false
    (Some (at_ 10 0)) (Some (at_ 14 0)) false "".

(** A special day with the times in the wrong order. *)
Definition inverted_day : SpecialDay.t :=
  SpecialDay.Build 1%N false (Date 2026 6 15) "Half Day" false
    (Some (at_ 18 0)) (Some (at_ 9 0)) false "".

(** A week of closure over Christmas. *)
Definition holiday_closure : ScheduleOverride.t :=
  ScheduleOverride.Build 1%N false (Date 2026 12 20) (Date 2026 12 31)
    "Holiday closure" None None true.

(** An override whose times are in the wrong order. *)
Definition inverted_override : ScheduleOverride.t :=
  ScheduleOverride.Build 1%N false (Date 2026 7 1) (Date 2026 7 1)
    "Single day" (Some (at_ 18 0)) (Some (at_ 9 0)) false.

(** An override that opens at midnight. *)
Definition night_override : ScheduleOverride.t :=
  ScheduleOverride.Build 1%N false (Date 2026 7 1) (Date 2026 7 1)
    "Night shift" (Some (at_ 0 0)) (Some (at_ 12 0)) false.

Definition db_christmas : database :=
  Database [thursday_hours; friday_hours; saturday_hours] [christmas] [].

Definition db_closure : database :=
  Database [friday_hours] [open_day] [holiday_closure].

Definition db_night : database :=
  Database [] [] [night_override].

(** Thursday 09:00-10:00, and an evening entry 23:00-23:59. *)
Definition short_hours : BusinessHours.t :=
  BusinessHours.Build 1%N false 3 (at_ 9 0) (at_ 10 0) false None None.

Definition late_hours : BusinessHours.t :=
  BusinessHours.Build 1%N false 3 (at_ 23 0) (Time 23 59 0 0) false None None.

(** Well-formedness of a concrete weekly entry. *)
Ltac entry_wf_tac :=
  split; [| split; [| split]];
  [ unfold time_wf; simpl; lia
  | unfold time_wf; simpl; lia
  | intros ? H; simpl in H; simplify_eq; unfold time_wf; simpl; lia
  | intros ? H; simpl in H; simplify_eq; unfold time_wf; simpl; lia ].

(** ** Further code of the module *)

(** The order of the tuples of two times and of two dates, spelled out. *)
Definition time_lt (a b : time) : Prop :=
  hour a < hour b
  ∨ (hour a = hour b
     ∧ (minute a < minute b
        ∨ (minute a = minute b
           ∧ (second a < second b
              ∨ (second a = second b ∧ microsecond a < microsecond b))))).

Definition time_le (a b : time) : Prop := time_lt a b ∨ a = b.

Definition date_le (a b : date) : Prop :=
  year a < year b
  ∨ (year a = year b
     ∧ (month a < month b ∨ (month a = month b ∧ day a <= day b))).

(** The position after an advance of [stride] minutes. *)
Definition advance (stride : Z) (pos : time) : time :=
  Time ((hour pos * 60 + minute pos + stride) `div` 60)
       ((hour pos * 60 + minute pos + stride) `mod` 60) 0 0.

(** The first slot at or after a position: the position itself, or
    [break_end] when the break holds the position, if that is before
    [close_time]. *)
Definition first_slot_from (self : BusinessHours.t) (pos : time)
    : option time :=
  if time_ltb pos (BusinessHours.close_time self) then
    match BusinessHours.break_window self with
    | Some (bs, be) =>
        if time_leb bs pos && time_ltb pos be
        then (if time_ltb be (BusinessHours.close_time self)
              then Some be else None)
        else Some pos
    | None => Some pos
    end
  else None.

Definition first_slot (self : BusinessHours.t) : option time :=
  first_slot_from self (BusinessHours.open_time self).

(** The defaults of the fields of [ScheduleSettings]. *)
Definition default_settings (h : hub) : ScheduleSettings.t :=
  ScheduleSettings.Build h "Europe/Madrid" 1 30 false.

Definition settings_rows (table : list ScheduleSettings.t) (h : hub)
    : list ScheduleSettings.t :=
  filter (λ s, ScheduleSettings.hub_id s = h) table.

(** [ScheduleSettings.get_settings]:
    [cls.all_objects.get_or_create(hub_id=hub_id)].  The result is the row
    and the table after the call. *)
Definition get_settings (table : list ScheduleSettings.t) (h : hub)
    : outcome (ScheduleSettings.t * list ScheduleSettings.t) :=
  match get (settings_rows table h) with
  | Got s => Returned (s, table)
  | DoesNotExist =>
      let s := default_settings h in Returned (s, table ++ [s])
  | Multiple => Raised MultipleObjectsReturned
  end.

(** [BusinessHours.get_slots] together with its access to the settings
    table: a closed entry returns before the settings are read; any
    exception of [get_settings] is caught and gives 30 minutes. *)
Definition get_slots_stored (fuel : nat) (table : list ScheduleSettings.t)
    (self : BusinessHours.t)
    : outcome (list time) * list ScheduleSettings.t :=
  if BusinessHours.is_closed self then (Returned [], table)
  else
    match get_settings table (BusinessHours.hub_id self) with
    | Returned (s, table') =>
        (BusinessHours.get_slots fuel (Some s) self, table')
    | _ => (BusinessHours.get_slots fuel None self, table)
    end.

(** The body of a POST request as the views see it: [json.loads] raises,
    or it gives a value that is no object (so that [data.get] raises), or
    it gives an object. *)
Inductive request_body (P : Type) : Type :=
  | NotJson
  | NotObject
  | JsonObject (data : P).
Arguments NotJson {P}.
Arguments NotObject {P}.
Arguments JsonObject {P} data.

(** A key of the decoded object: absent; present with a value that the
    conversion of the field accepts, given as the converted value; or
    present with a value that it refuses ([int(...)] raising, a text that
    is no time, [null] for a mandatory column). *)
Inductive field (A : Type) : Type :=
  | Absent
  | Value (a : A)
  | Rejected.
Arguments Absent {A}.
Arguments Value {A} a.
Arguments Rejected {A}.

(** The integer columns hold signed 64-bit values (SQLite); a larger
    value makes the statement that writes it raise. *)
Definition int_column_holds (z : Z) : bool :=
  (- 2 ^ 63 <=? z) && (z <? 2 ^ 63).

(** [data.get(key, default)] followed by the conversion of the field. *)
Definition decode {A : Type} (dflt : A) (f : field A) : option A :=
  match f with
  | Absent => Some dflt
  | Value a => Some a
  | Rejected => None
  end.

(** The same for an integer column: [int(data.get(key, default))] and the
    range of the column. *)
Definition decode_int (dflt : Z) (f : field Z) : option Z :=
  match f with
  | Absent => Some dflt
  | Value z => if int_column_holds z then Some z else None
  | Rejected => None
  end.

(** [data.get(key) or None] followed by the conversion of an optional
    field: a key that holds [null] or another falsy value reads as
    absent. *)
Definition decode_optional {A : Type} (f : field A) : option (option A) :=
  match f with
  | Absent => Some None
  | Value a => Some (Some a)
  | Rejected => None
  end.

(** The keys of the body of [settings_save]. *)
Record settings_payload : Type := SettingsPayload {
  p_timezone : field string;
  p_week_starts_on : field Z;
  p_slot_duration : field Z;
  p_auto_close_enabled : field bool
}.

(** [settings.save()]: the row of the tenant is replaced. *)
Definition save_settings (s : ScheduleSettings.t)
    (table : list ScheduleSettings.t) : list ScheduleSettings.t :=
  (λ r, if decide (ScheduleSettings.hub_id r = ScheduleSettings.hub_id s)
        then s else r) <$> table.

(** The four assignments of [settings_save] and the conversions at
    [save()]: the row to store, or [None] when one of them raises. *)
Definition settings_of_payload (settings : ScheduleSettings.t)
    (data : settings_payload) : option ScheduleSettings.t :=
  match decode (ScheduleSettings.timezone settings) (p_timezone data),
        decode_int (ScheduleSettings.week_starts_on settings)
          (p_week_starts_on data),
        decode_int (ScheduleSettings.slot_duration settings)
          (p_slot_duration data),
        decode (ScheduleSettings.auto_close_enabled settings)
          (p_auto_close_enabled data) with
  | Some tz, Some w, Some d, Some a =>
      Some (ScheduleSettings.Build (ScheduleSettings.hub_id settings) tz w d a)
  | _, _, _, _ => None
  end.

(** [settings_save]: the [success] flag of the response and the table
    afterwards.  Every exception is caught and answered with
    [success: False]; a settings row that [get_settings] created before
    the exception stays (each statement is committed on its own). *)
Definition settings_save (table : list ScheduleSettings.t) (h : hub)
    (body : request_body settings_payload)
    : bool * list ScheduleSettings.t :=
  match body with
  | NotJson => (false, table)
  | _ =>
      match get_settings table h with
      | Returned (settings, table') =>
          match body with
          | JsonObject data =>
              match settings_of_payload settings data with
              | Some settings' => (true, save_settings settings' table')
              | None => (false, table')
              end
          | _ => (false, table')
          end
      | _ => (false, table)
      end
  end.

(** The keys of the body of [edit_hours]. *)
Record hours_payload : Type := HoursPayload {
  p_day_of_week : field Z;
  p_is_closed : field bool;
  p_open_time : field time;
  p_close_time : field time;
  p_break_start : field time;
  p_break_end : field time
}.

(** The row that [edit_hours] writes, or [None] when [int(...)] or the
    conversion of a field at [save()] raises. *)
Definition hours_of_payload (h : hub) (data : hours_payload)
    : option BusinessHours.t :=
  match decode_int 0 (p_day_of_week data),
        decode false (p_is_closed data),
        decode (Time 9 0 0 0) (p_open_time data),
        decode (Time 18 0 0 0) (p_close_time data),
        decode_optional (p_break_start data),
        decode_optional (p_break_end data) with
  | Some day_of_week, Some is_closed, Some open_time, Some close_time,
    Some break_start, Some break_end =>
      Some (BusinessHours.Build h false day_of_week open_time close_time
              is_closed break_start break_end)
  | _, _, _, _, _, _ => None
  end.

(** [all_objects.get_or_create] on [(hub_id, day_of_week)], soft-deleted
    rows included, and the update of an existing row, which is restored. *)
Definition write_hours (db : database) (h : hub) (row : BusinessHours.t)
    : bool * database :=
  let same_key (b : BusinessHours.t) : Prop :=
    BusinessHours.hub_id b = h
    ∧ BusinessHours.day_of_week b = BusinessHours.day_of_week row in
  match get (filter same_key (business_hours db)) with
  | DoesNotExist =>
      (true, Database (business_hours db ++ [row])
               (special_days db) (overrides db))
  | Got _ =>
      (true, Database ((λ b, if decide (same_key b) then row else b)
                         <$> business_hours db)
               (special_days db) (overrides db))
  | Multiple => (false, db)
  end.

(** [edit_hours]: the [success] flag of the response and the tables
    afterwards.  Every exception is caught and answered with
    [success: False]; nothing is written then. *)
Definition edit_hours (db : database) (h : hub)
    (body : request_body hours_payload) : bool * database :=
  match body with
  | JsonObject data =>
      match hours_of_payload h data with
      | Some row => write_hours db h row
      | None => (false, db)
      end
  | _ => (false, db)
  end.

(** The value of a key that was accepted. *)
Definition field_value {A : Type} (dflt : A) (f : field A) : A :=
  match f with Value a => a | _ => dflt end.

Definition field_option {A : Type} (f : field A) : option A :=
  match f with Value a => Some a | _ => None end.

(** The conversion of a key does not raise. *)
Definition field_ok {A : Type} (f : field A) : Prop := f ≠ Rejected.

Definition int_field_ok (f : field Z) : Prop :=
  match f with
  | Absent => True
  | Value z => - 2 ^ 63 <= z < 2 ^ 63
  | Rejected => False
  end.

(** No key of the body makes [settings_save] raise. *)
Definition settings_payload_ok (data : settings_payload) : Prop :=
  field_ok (p_timezone data)
  ∧ int_field_ok (p_week_starts_on data)
  ∧ int_field_ok (p_slot_duration data)
  ∧ field_ok (p_auto_close_enabled data).

(** No key of the body makes [edit_hours] raise. *)
Definition hours_payload_ok (data : hours_payload) : Prop :=
  int_field_ok (p_day_of_week data)
  ∧ field_ok (p_is_closed data)
  ∧ field_ok (p_open_time data)
  ∧ field_ok (p_close_time data)
  ∧ field_ok (p_break_start data)
  ∧ field_ok (p_break_end data).

(** [DAY_OF_WEEK_CHOICES] *)
Definition DAY_OF_WEEK_CHOICES : list (Z * string) :=
  [(0, "Monday"); (1, "Tuesday"); (2, "Wednesday"); (3, "Thursday");
   (4, "Friday"); (5, "Saturday"); (6, "Sunday")].

(** The live weekly rows of a tenant in the order of the dashboard. *)
Definition dashboard_hours (db : database) (h : hub) : list BusinessHours.t :=
  merge_sort by_day_of_week
    (filter (λ b, bool_decide (BusinessHours.hub_id b = h)
                  && negb (BusinessHours.is_deleted b) = true)
            (business_hours db)).

(** The [week] list of the context of [dashboard]. *)
Definition dashboard_week (db : database) (h : hub)
    : list (Z * string * option BusinessHours.t) :=
  (λ c, (c.1, c.2, hours_by_day (dashboard_hours db h) !! c.1))
    <$> DAY_OF_WEEK_CHOICES.

(** The [next_special] entry of the context of [dashboard]. *)
Definition upcoming_rows (db : database) (h : hub) (today : date)
    : list SpecialDay.t :=
  filter (λ s, bool_decide (SpecialDay.hub_id s = h)
               && negb (SpecialDay.is_deleted s)
               && date_leb today (SpecialDay.date_ s) = true)
         (special_days db).

Definition next_special (db : database) (h : hub) (today : date)
    : option SpecialDay.t :=
  first by_date (upcoming_rows db h today).

(** The two lists of the [special_days] view. *)
Definition special_days_list (db : database) (h : hub) : list SpecialDay.t :=
  merge_sort by_date
    (filter (λ s, bool_decide (SpecialDay.hub_id s = h)
                  && negb (SpecialDay.is_deleted s) = true)
            (special_days db)).

Definition overrides_list (db : database) (h : hub)
    : list ScheduleOverride.t :=
  merge_sort by_start_date_desc
    (filter (λ o, bool_decide (ScheduleOverride.hub_id o = h)
                  && negb (ScheduleOverride.is_deleted o) = true)
            (overrides db)).

(** The rows a view of tenant [h] can see: those of the tenant that are
    not soft-deleted. *)
Definition visible (db : database) (h : hub) : database :=
  Database
    (filter (λ b, BusinessHours.hub_id b = h
                  ∧ BusinessHours.is_deleted b = false) (business_hours db))
    (filter (λ s, SpecialDay.hub_id s = h
                  ∧ SpecialDay.is_deleted s = false) (special_days db))
    (filter (λ o, ScheduleOverride.hub_id o = h
                  ∧ ScheduleOverride.is_deleted o = false) (overrides db)).

(** [unique_together = [('hub_id',)]] on the settings table. *)
Definition settings_unique (table : list ScheduleSettings.t) : Prop :=
  NoDup (ScheduleSettings.hub_id <$> table).

(** Summer hours over two months and a week of closure inside them. *)
Definition summer_hours : ScheduleOverride.t :=
  ScheduleOverride.Build 1%N false (Date 2026 7 1) (Date 2026 8 31)
    "Summer hours" (Some (at_ 8 0)) (Some (at_ 15 0)) false.

Definition august_closure : ScheduleOverride.t :=
  ScheduleOverride.Build 1%N false (Date 2026 8 10) (Date 2026 8 16)
    "August closure" None None true.

Definition db_overlap : database :=
  Database [] [] [summer_hours; august_closure].

(** ** The order on times *)

Section TimeOrder.

Lemma lex_eq c1 c2 : lex c1 c2 = Eq ↔ c1 = Eq ∧ c2 = Eq.
Proof. destruct c1; simpl; intuition congruence. Qed.

Lemma time_cmp_refl a : time_cmp a a = Eq.
Proof. unfold time_cmp. by rewrite !Z.compare_refl. Qed.

Lemma time_leb_refl a : time_leb a a = true.
Proof. unfold time_leb. by rewrite time_cmp_refl. Qed.

Lemma time_ltb_irrefl a : time_ltb a a = false.
Proof. unfold time_ltb. by rewrite time_cmp_refl. Qed.

(** On well-formed times the tuple order is the order of the instants. *)
Lemma time_cmp_us a b :
  time_wf a → time_wf b → time_cmp a b = (us_of a ?= us_of b).
Proof.
  intros (Ha1 & Ha2 & Ha3 & Ha4) (Hb1 & Hb2 & Hb3 & Hb4).
  unfold time_cmp, lex, us_of.
  destruct (Z.compare_spec (hour a) (hour b));
    destruct (Z.compare_spec (minute a) (minute b));
    destruct (Z.compare_spec (second a) (second b));
    destruct (Z.compare_spec (microsecond a) (microsecond b));
    symmetry;
    first [ apply Z.compare_eq_iff | apply Z.compare_lt_iff
          | apply Z.compare_gt_iff ]; lia.
Qed.

Lemma time_ltb_us a b :
  time_wf a → time_wf b → time_ltb a b = (us_of a <? us_of b).
Proof.
  intros Ha Hb. unfold time_ltb, Z.ltb. by rewrite time_cmp_us.
Qed.

Lemma time_leb_us a b :
  time_wf a → time_wf b → time_leb a b = (us_of a <=? us_of b).
Proof.
  intros Ha Hb. unfold time_leb, Z.leb. by rewrite time_cmp_us.
Qed.

End TimeOrder.

(** ** Opening hours of one weekly entry *)

Section IsOpenAt.

Lemma break_window_Some self bs be :
  BusinessHours.break_window self = Some (bs, be) ↔
  BusinessHours.break_start self = Some bs
  ∧ BusinessHours.break_end self = Some be.
Proof.
  unfold BusinessHours.break_window, truthy.
  destruct (BusinessHours.break_start self), (BusinessHours.break_end self);
    simpl; split; try (intros [? ?]); try intros ?; simplify_eq; done.
Qed.

Lemma break_window_None self :
  BusinessHours.break_window self = None ↔
  BusinessHours.break_start self = None
  ∨ BusinessHours.break_end self = None.
Proof.
  unfold BusinessHours.break_window, truthy.
  destruct (BusinessHours.break_start self), (BusinessHours.break_end self);
    simpl; split; try (intros [? | ?]); try intros ?; simplify_eq; auto.
Qed.

(** The break test of [is_open_at] and [get_slots], as a decision of
    [inside_break]. *)
Lemma inside_break_window self x :
  inside_break self x ↔
  ∃ bs be, BusinessHours.break_window self = Some (bs, be)
           ∧ time_leb bs x && time_ltb x be = true.
Proof.
  unfold inside_break. split.
  - intros (bs & be & Hs & He & H1 & H2). exists bs, be.
    split; [by apply break_window_Some | by rewrite H1, H2].
  - intros (bs & be & [Hs He]%break_window_Some & [H1 H2]%andb_true_iff).
    by exists bs, be.
Qed.

Lemma is_open_at_iff self x :
  BusinessHours.is_closed self = false →
  BusinessHours.is_open_at self x = true ↔
  (time_leb (BusinessHours.open_time self) x = true
   ∧ time_ltb x (BusinessHours.close_time self) = true)
  ∧ ¬ inside_break self x.
Proof.
  intros Hc. unfold BusinessHours.is_open_at. rewrite Hc.
  rewrite inside_break_window.
  destruct (time_leb (BusinessHours.open_time self) x); simpl;
    [| split; [done | by intros [[? ?] ?]]].
  destruct (time_ltb x (BusinessHours.close_time self)); simpl;
    [| split; [done | by intros [[? ?] ?]]].
  destruct (BusinessHours.break_window self) as [[bs be]|] eqn:Hw.
  - destruct (time_leb bs x && time_ltb x be) eqn:Hi.
    + split; [done |]. intros [_ Hn]. destruct Hn. by exists bs, be.
    + split; [| done]. intros _. split; [done |].
      intros (bs' & be' & [= <- <-] & Hi'). congruence.
  - split; [| done]. intros _. split; [done |]. by intros (? & ? & ? & _).
Qed.

End IsOpenAt.

(** C4: for a weekly entry that is not closed, [is_open_at t] holds exactly
    when [open_time <= t < close_time] and [t] is not inside a break that
    has both ends set.  The close boundary is exclusive, and an instant
    equal to [break_end] is open again when it is within the hours.  For
    09:00-18:00 with break 13:00-14:00 the entry is not open at 13:00 and
    at 13:59 and is open at 14:00.  The order of [open_time] and
    [close_time] plays no part. *)
Theorem is_open_at_boundaries (self : BusinessHours.t) (t : time)
    (Hopen : BusinessHours.is_closed self = false) :
  (BusinessHours.is_open_at self t = true ↔
     (time_leb (BusinessHours.open_time self) t = true
      ∧ time_ltb t (BusinessHours.close_time self) = true)
     ∧ ¬ (∃ bs be, BusinessHours.break_start self = Some bs
                   ∧ BusinessHours.break_end self = Some be
                   ∧ time_leb bs t = true ∧ time_ltb t be = true))
  ∧ BusinessHours.is_open_at self (BusinessHours.close_time self) = false
  ∧ (∀ be, BusinessHours.break_end self = Some be →
       time_leb (BusinessHours.open_time self) be = true →
       time_ltb be (BusinessHours.close_time self) = true →
       BusinessHours.is_open_at self be = true)
  ∧ BusinessHours.is_open_at monday_hours (at_ 13 0) = false
  ∧ BusinessHours.is_open_at monday_hours (at_ 13 59) = false
  ∧ BusinessHours.is_open_at monday_hours (at_ 14 0) = true.
Proof.
  split; [by apply is_open_at_iff |].
  split.
  { apply not_true_is_false. intros [[_ H] _]%is_open_at_iff; [| done].
    by rewrite time_ltb_irrefl in H. }
  split; [| done].
  intros be Hbe H1 H2. apply is_open_at_iff; [done |].
  split; [done |]. intros (bs & be' & _ & Hbe' & _ & Hlt).
  rewrite Hbe in Hbe'. injection Hbe' as <-.
  by rewrite time_ltb_irrefl in Hlt.
Qed.

Lemma is_open_at_boundaries_witness :
  BusinessHours.is_closed monday_hours = false
  ∧ BusinessHours.is_open_at monday_hours
      (BusinessHours.close_time monday_hours) = false.
Proof.
  split; [reflexivity |].
  exact (proj1 (proj2 (is_open_at_boundaries monday_hours (at_ 9 0) eq_refl))).
Defined.

(** ** Validation *)

(** C7: a weekly entry or a special day whose closed flag is set passes
    validation whatever its time fields hold: times in the wrong order,
    a malformed break, or no times at all. *)
Theorem clean_skipped_when_closed :
  (∀ b : BusinessHours.t,
     BusinessHours.is_closed b = true → BusinessHours.clean b = Valid)
  ∧ (∀ s : SpecialDay.t,
       SpecialDay.is_closed s = true → SpecialDay.clean s = Valid).
Proof.
  split.
  - intros b Hc. unfold BusinessHours.clean. by rewrite Hc.
  - intros s Hc. unfold SpecialDay.clean. by rewrite Hc.
Qed.

Lemma clean_skipped_when_closed_witness :
  (BusinessHours.is_closed closed_sunday = true
   ∧ time_geb (BusinessHours.open_time closed_sunday)
              (BusinessHours.close_time closed_sunday) = true
   ∧ BusinessHours.clean closed_sunday = Valid)
  ∧ (SpecialDay.is_closed holiday = true
     ∧ SpecialDay.open_time holiday = None
     ∧ SpecialDay.clean holiday = Valid).
Proof.
  split.
  - split; [reflexivity |]. split; [reflexivity |].
    exact (proj1 clean_skipped_when_closed closed_sunday eq_refl).
  - split; [reflexivity |]. split; [reflexivity |].
    exact (proj2 clean_skipped_when_closed holiday eq_refl).
Defined.

(** The claim of C5 fails for overrides: an override that is not closed and
    has [open_time] 18:00 after [close_time] 09:00 passes validation. *)
Lemma inverted_override_passes_clean :
  ScheduleOverride.is_closed inverted_override = false
  ∧ ScheduleOverride.open_time inverted_override = Some (at_ 18 0)
  ∧ ScheduleOverride.close_time inverted_override = Some (at_ 9 0)
  ∧ time_geb (at_ 18 0) (at_ 9 0) = true
  ∧ ScheduleOverride.clean inverted_override = Valid.
Proof. repeat split. Qed.

(** C5, amended: a weekly entry or a special day that is not closed and
    has [open_time >= close_time] fails validation, equal times included;
    the validation of an override looks at its two dates only and accepts
    or rejects the override whatever its times and closed flag are. *)
Theorem clean_requires_open_before_close :
  (∀ b : BusinessHours.t,
     BusinessHours.is_closed b = false →
     time_geb (BusinessHours.open_time b) (BusinessHours.close_time b) = true →
     BusinessHours.clean b
     = ValidationError "Open time must be before close time.")
  ∧ (∀ b : BusinessHours.t,
       BusinessHours.is_closed b = false →
       BusinessHours.open_time b = BusinessHours.close_time b →
       BusinessHours.clean b
       = ValidationError "Open time must be before close time.")
  ∧ (∀ (s : SpecialDay.t) (o c : time),
       SpecialDay.is_closed s = false →
       SpecialDay.open_time s = Some o → SpecialDay.close_time s = Some c →
       time_geb o c = true →
       SpecialDay.clean s
       = ValidationError "Open time must be before close time.")
  ∧ (∀ (s : SpecialDay.t) (o : time),
       SpecialDay.is_closed s = false →
       SpecialDay.open_time s = Some o → SpecialDay.close_time s = Some o →
       SpecialDay.clean s
       = ValidationError "Open time must be before close time.")
  ∧ (∀ (o : ScheduleOverride.t) (ot ct : option time) (closed : bool),
       ScheduleOverride.clean
         (ScheduleOverride.Build (ScheduleOverride.hub_id o)
            (ScheduleOverride.is_deleted o) (ScheduleOverride.start_date o)
            (ScheduleOverride.end_date o) (ScheduleOverride.reason o)
            ot ct closed)
       = ScheduleOverride.clean o).
Proof.
  assert (Hb : ∀ b : BusinessHours.t,
    BusinessHours.is_closed b = false →
    time_geb (BusinessHours.open_time b) (BusinessHours.close_time b) = true →
    BusinessHours.clean b
    = ValidationError "Open time must be before close time.").
  { intros b Hc Hge. unfold BusinessHours.clean. by rewrite Hc, Hge. }
  assert (Hs : ∀ (s : SpecialDay.t) (o c : time),
    SpecialDay.is_closed s = false →
    SpecialDay.open_time s = Some o → SpecialDay.close_time s = Some c →
    time_geb o c = true →
    SpecialDay.clean s
    = ValidationError "Open time must be before close time.").
  { intros s o c Hc Ho Hcl Hge. unfold SpecialDay.clean.
    by rewrite Hc, Ho, Hcl; simpl; rewrite Hge. }
  split; [exact Hb |]. split.
  { intros b Hc Heq. apply Hb; [done |].
    unfold time_geb. rewrite Heq. apply time_leb_refl. }
  split; [exact Hs |]. split; [| done].
  intros s o Hc Ho Hcl. apply (Hs s o o); [done .. |].
  apply time_leb_refl.
Qed.

Lemma clean_requires_open_before_close_witness :
  (BusinessHours.is_closed
     (BusinessHours.Build 1%N false 0 (at_ 9 0) (at_ 9 0) false None None)
   = false
   ∧ BusinessHours.clean
       (BusinessHours.Build 1%N false 0 (at_ 9 0) (at_ 9 0) false None None)
     = ValidationError "Open time must be before close time.")
  ∧ (SpecialDay.is_closed inverted_day = false
     ∧ SpecialDay.clean inverted_day
       = ValidationError "Open time must be before close time.").
Proof.
  split.
  - split; [reflexivity |].
    exact (proj1 (proj2 clean_requires_open_before_close)
             (BusinessHours.Build 1%N false 0 (at_ 9 0) (at_ 9 0) false None None)
             eq_refl eq_refl).
  - split; [reflexivity |].
    exact (proj1 (proj2 (proj2 clean_requires_open_before_close))
             inverted_day (at_ 18 0) (at_ 9 0) eq_refl eq_refl eq_refl eq_refl).
Defined.

(** ** The slot generator *)

Section Slots.

Variable self : BusinessHours.t.
Variable stride : Z.

Lemma in_break_true x :
  in_break self x = true ↔ inside_break self x.
Proof.
  rewrite inside_break_window. unfold in_break.
  destruct (BusinessHours.break_window self) as [[bs be]|].
  - split; [by exists bs, be | by intros (? & ? & [= <- <-] & ?)].
  - split; [done | by intros (? & ? & ? & ?)].
Qed.

Lemma timedelta_fits_iff m :
  timedelta_fits m = true ↔ -1439999998560 <= m <= max_stride.
Proof.
  unfold timedelta_fits, max_stride.
  rewrite andb_true_iff, !Z.leb_le. Z.div_mod_to_equations. lia.
Qed.

(** An advance that [timedelta] refuses ends in [OverflowError]. *)
Lemma emit_and_advance_overflow current slots :
  timedelta_fits stride = false →
  BusinessHours.emit_and_advance stride current slots
  = BusinessHours.Raise OverflowError.
Proof. intros Hf. unfold BusinessHours.emit_and_advance. by rewrite Hf. Qed.

(** The three ways the advance can end otherwise. *)
Lemma emit_and_advance_cases current slots :
  timedelta_fits stride = true →
  let total := hour current * 60 + minute current + stride in
  (24 * 60 <= total
   ∧ BusinessHours.emit_and_advance stride current slots
     = BusinessHours.Break (slots ++ [current]))
  ∨ (0 <= total < 24 * 60
     ∧ BusinessHours.emit_and_advance stride current slots
       = BusinessHours.Continue
           (Time (total `div` 60) (total `mod` 60) 0 0) (slots ++ [current]))
  ∨ (total < 0
     ∧ BusinessHours.emit_and_advance stride current slots
       = BusinessHours.Raise ValueError).
Proof.
  intros Hf total. unfold BusinessHours.emit_and_advance. rewrite Hf. simpl.
  fold total.
  destruct (24 <=? total `div` 60) eqn:E24.
  - left. split; [Z.div_mod_to_equations; lia | done].
  - right. unfold mk_time.
    destruct (_ && _) eqn:E; [left | right];
      (split; [Z.div_mod_to_equations; lia | done]).
Qed.

Lemma loop_body_cases current slots :
  (∃ bs be, BusinessHours.break_start self = Some bs
            ∧ BusinessHours.break_end self = Some be
            ∧ time_leb bs current = true ∧ time_ltb current be = true
            ∧ BusinessHours.loop_body self stride current slots
              = BusinessHours.Continue be slots)
  ∨ (¬ inside_break self current
     ∧ BusinessHours.loop_body self stride current slots
       = BusinessHours.emit_and_advance stride current slots).
Proof.
  unfold BusinessHours.loop_body.
  destruct (BusinessHours.break_window self) as [[bs be]|] eqn:Hw.
  - apply break_window_Some in Hw as [Hs He].
    destruct (time_leb bs current && time_ltb current be) eqn:Hi.
    + left. apply andb_true_iff in Hi as [H1 H2]. by exists bs, be.
    + right. split; [| done].
      intros (bs' & be' & Hs' & He' & H1 & H2).
      rewrite Hs in Hs'. rewrite He in He'. simplify_eq.
      by rewrite H1, H2 in Hi.
  - right. split; [| done].
    intros (bs & be & Hs & He & _).
    apply break_window_None in Hw as [Hw | Hw]; congruence.
Qed.

(** Whatever the loop returns is the sequence of the specification,
    appended to the slots collected before. *)
Lemma while_loop_sound fuel : ∀ current slots l,
  BusinessHours.while_loop fuel self stride current slots = Returned l →
  ∃ l', l = slots ++ l' ∧ slot_sequence self stride current l'.
Proof.
  induction fuel as [| fuel IH]; intros current slots l; simpl; [done |].
  destruct (time_ltb current (BusinessHours.close_time self)) eqn:Hlt.
  - destruct (loop_body_cases current slots)
      as [(bs & be & Hs & He & H1 & H2 & ->) | [Hout ->]].
    + intros (l' & -> & Hseq)%IH. exists l'. split; [done |].
      by eapply seq_skip.
    + destruct (timedelta_fits stride) eqn:Hf;
        [| by rewrite emit_and_advance_overflow].
      destruct (emit_and_advance_cases current slots Hf)
        as [[Ht ->] | [[Ht ->] | [Ht ->]]]; [| | done].
      * intros [= <-]. exists [current]. split; [done |].
        by apply seq_midnight.
      * intros (l' & -> & Hseq)%IH. exists (current :: l').
        split; [by rewrite <- app_assoc |]. by apply seq_emit.
  - intros [= <-]. exists []. split; [by rewrite app_nil_r |].
    by apply seq_stop.
Qed.

(** The sequence from a position is unique. *)
Lemma slot_sequence_functional pos l1 :
  slot_sequence self stride pos l1 →
  ∀ l2, slot_sequence self stride pos l2 → l1 = l2.
Proof.
  induction 1 as [pos Hge | pos bs be l Hlt Hs He H1 H2 Hseq IH
                 | pos Hlt Hout Ht | pos l Hlt Hout Ht Hseq IH];
    intros l2 Hl2; inversion Hl2; subst; try congruence; try lia;
    try (exfalso;
         match goal with H : ¬ inside_break _ _ |- _ => apply H end;
         unfold inside_break; by eauto 10).
  - simplify_eq. by apply IH.
  - f_equal. by apply IH.
Qed.

Hypothesis Hwf : entry_wf self.
Hypothesis Hstride : 1 <= stride.
Hypothesis Hmax : stride <= max_stride.

Lemma remaining_bounds x : time_wf x → 0 <= remaining self x <= 2881.
Proof.
  intros (? & ? & ? & ?). unfold remaining, minute_of_day.
  destruct (in_break self x); lia.
Qed.

(** With a positive stride the loop returns as soon as the budget
    exceeds [remaining]. *)
Lemma while_loop_returns fuel : ∀ current slots,
  time_wf current →
  remaining self current < Z.of_nat fuel →
  ∃ l, BusinessHours.while_loop fuel self stride current slots = Returned l.
Proof.
  destruct Hwf as (Hwo & Hwc & Hwbs & Hwbe).
  induction fuel as [| fuel IH]; intros current slots Hcur Hrem.
  { pose proof (remaining_bounds current Hcur). lia. }
  simpl.
  destruct (time_ltb current (BusinessHours.close_time self)) eqn:Hlt;
    [| by eexists].
  destruct (loop_body_cases current slots)
    as [(bs & be & Hs & He & H1 & H2 & ->) | [Hout ->]].
  - apply IH; [by apply Hwbe |].
    assert (Hin : in_break self current = true).
    { apply in_break_true. by exists bs, be. }
    assert (Hnot : in_break self be = false).
    { apply not_true_is_false. intros (bs' & be' & _ & He' & _ & Hlt')%in_break_true.
      rewrite He in He'. injection He' as <-.
      by rewrite time_ltb_irrefl in Hlt'. }
    rewrite time_ltb_us in H2 by auto.
    pose proof (Hwbe be He) as (? & ? & ? & ?).
    destruct Hcur as (? & ? & ? & ?).
    unfold remaining, minute_of_day in *. rewrite Hin in Hrem. rewrite Hnot.
    unfold us_of in H2. lia.
  - assert (Hf : timedelta_fits stride = true)
      by (apply timedelta_fits_iff; lia).
    destruct (emit_and_advance_cases current slots Hf)
      as [[Ht ->] | [[Ht ->] | [Ht ->]]].
    + by eexists.
    + remember (hour current * 60 + minute current + stride) as total
        eqn:Htotal.
      apply IH.
      * unfold time_wf; simpl. Z.div_mod_to_equations; lia.
      * assert (Hnot : in_break self current = false).
        { apply not_true_is_false. by intros ?%in_break_true. }
        unfold remaining, minute_of_day in *. rewrite Hnot in Hrem. simpl.
        match goal with
        | |- context [in_break self ?x] => destruct (in_break self x)
        end; Z.div_mod_to_equations; lia.
    + destruct Hcur as (? & ? & ? & ?). lia.
Qed.

Hypothesis Hopen : BusinessHours.is_closed self = false.

(** Every slot of the sequence lies in the opening hours. *)
Lemma slot_sequence_open pos l :
  slot_sequence self stride pos l →
  time_wf pos →
  time_leb (BusinessHours.open_time self) pos = true →
  Forall (λ x, BusinessHours.is_open_at self x = true) l.
Proof.
  destruct Hwf as (Hwo & Hwc & Hwbs & Hwbe).
  induction 1 as [pos Hge | pos bs be l Hlt Hs He H1 H2 Hseq IH
                 | pos Hlt Hout Ht | pos l Hlt Hout Ht Hseq IH];
    intros Hpos Hle.
  - constructor.
  - apply IH; [by apply Hwbe |].
    rewrite time_leb_us in * by auto.
    rewrite time_ltb_us in H2 by auto. lia.
  - constructor; [| constructor]. by apply is_open_at_iff.
  - constructor; [by apply is_open_at_iff |].
    remember (hour pos * 60 + minute pos + stride) as total eqn:Htotal.
    assert (Hnext : time_wf (Time (total `div` 60) (total `mod` 60) 0 0)).
    { unfold time_wf; simpl. Z.div_mod_to_equations; lia. }
    apply IH; [done |].
    rewrite time_leb_us in * by auto.
    destruct Hpos as (? & ? & ? & ?).
    unfold us_of in *; simpl. Z.div_mod_to_equations; lia.
Qed.

End Slots.

Section SlotsResults.

Lemma get_slots_open fuel settings self :
  BusinessHours.is_closed self = false →
  BusinessHours.get_slots fuel settings self
  = BusinessHours.while_loop fuel self (stride_of settings)
      (BusinessHours.open_time self) [].
Proof. intros Hc. unfold BusinessHours.get_slots. by rewrite Hc. Qed.

Lemma get_slots_returns fuel settings self :
  entry_wf self → 1 <= stride_of settings →
  stride_of settings <= max_stride → (enough_fuel <= fuel)%nat →
  ∃ l, BusinessHours.get_slots fuel settings self = Returned l.
Proof.
  intros Hwf Hstride Hmax Hfuel.
  destruct (BusinessHours.is_closed self) eqn:Hc.
  - exists []. unfold BusinessHours.get_slots. by rewrite Hc.
  - rewrite get_slots_open by done.
    apply while_loop_returns; [done | done | done | exact (proj1 Hwf) |].
    pose proof (remaining_bounds self (BusinessHours.open_time self)
                  (proj1 Hwf)).
    unfold enough_fuel in Hfuel. lia.
Qed.

(** With stride 0 the position never moves past the minute it is in. *)
Lemma while_loop_zero_stride self fuel : ∀ current slots,
  BusinessHours.break_window self = None →
  time_wf (BusinessHours.close_time self) → time_wf current →
  time_ltb current (BusinessHours.close_time self) = true →
  BusinessHours.while_loop fuel self 0 current slots = OutOfFuel.
Proof.
  induction fuel as [| fuel IH]; intros current slots Hw Hwc Hcur Hlt;
    simpl; [done |].
  rewrite Hlt. unfold BusinessHours.loop_body. rewrite Hw.
  destruct Hcur as (? & ? & ? & ?).
  destruct (emit_and_advance_cases 0 current slots eq_refl)
    as [[Ht ->] | [[Ht ->] | [Ht ->]]]; [lia | | lia].
  remember (hour current * 60 + minute current + 0) as total eqn:Htotal.
  assert (Hnext : time_wf (Time (total `div` 60) (total `mod` 60) 0 0)).
  { unfold time_wf; simpl. Z.div_mod_to_equations; lia. }
  apply IH; [done .. |].
  rewrite time_ltb_us in * by (done || by unfold time_wf).
  unfold us_of in *; simpl. Z.div_mod_to_equations; lia.
Qed.

End SlotsResults.

(** C2: for a weekly entry that is not closed and a stride of at least
    one minute that [timedelta] accepts (up to 1439999999999 minutes),
    [get_slots] returns the one sequence that the specification defines
    from [open_time]: positions inside the break jump to [break_end]
    without a slot, every other position before [close_time] is a slot,
    the generator stops after the slot whose advance reaches 24:00, and
    it stops at the first position that is not before [close_time].  For a
    closed entry the result is empty.  09:00-12:00 with stride 30 gives
    09:00, 09:30, 10:00, 10:30, 11:00, 11:30; 09:00-10:00 with stride 45
    gives 09:00 and 09:45, although 09:45 plus the stride is past the
    close; 23:00-23:59 with stride 60 gives 23:00 alone. *)
Theorem get_slots_sequence :
  (∀ (self : BusinessHours.t) (settings : option ScheduleSettings.t),
     entry_wf self →
     BusinessHours.is_closed self = false →
     1 <= stride_of settings <= max_stride →
     ∃ l,
       (∀ fuel, (enough_fuel <= fuel)%nat →
          BusinessHours.get_slots fuel settings self = Returned l)
       ∧ slot_sequence self (stride_of settings)
           (BusinessHours.open_time self) l
       ∧ (∀ l', slot_sequence self (stride_of settings)
                  (BusinessHours.open_time self) l' → l' = l))
  ∧ (∀ (self : BusinessHours.t) (settings : option ScheduleSettings.t) fuel,
       BusinessHours.is_closed self = true →
       BusinessHours.get_slots fuel settings self = Returned [])
  ∧ (∀ fuel, (enough_fuel <= fuel)%nat →
       BusinessHours.get_slots fuel (settings_with 30) morning_hours
       = Returned [at_ 9 0; at_ 9 30; at_ 10 0; at_ 10 30; at_ 11 0; at_ 11 30])
  ∧ BusinessHours.get_slots enough_fuel (settings_with 45) short_hours
    = Returned [at_ 9 0; at_ 9 45]
  ∧ BusinessHours.get_slots enough_fuel (settings_with 60) late_hours
    = Returned [at_ 23 0].
Proof.
  assert (Hmain : ∀ (self : BusinessHours.t) (settings : option ScheduleSettings.t),
     entry_wf self →
     BusinessHours.is_closed self = false →
     1 <= stride_of settings <= max_stride →
     ∃ l,
       (∀ fuel, (enough_fuel <= fuel)%nat →
          BusinessHours.get_slots fuel settings self = Returned l)
       ∧ slot_sequence self (stride_of settings)
           (BusinessHours.open_time self) l
       ∧ (∀ l', slot_sequence self (stride_of settings)
                  (BusinessHours.open_time self) l' → l' = l)).
  { intros self settings Hwf Hc [Hstride Hmax].
    destruct (get_slots_returns enough_fuel settings self Hwf Hstride Hmax)
      as [l Hl]; [done |].
    pose proof Hl as Hl'. rewrite get_slots_open in Hl' by done.
    apply while_loop_sound in Hl' as (l0 & -> & Hseq). simpl in *.
    exists l0. split; [| split; [done |]].
    - intros fuel Hfuel.
      destruct (get_slots_returns fuel settings self Hwf Hstride Hmax Hfuel)
        as [l1 Hl1].
      rewrite Hl1. f_equal. rewrite get_slots_open in Hl1 by done.
      apply while_loop_sound in Hl1 as (l2 & -> & Hseq2). simpl.
      by eapply slot_sequence_functional.
    - intros l' Hl'. by eapply slot_sequence_functional. }
  split; [exact Hmain |]. split.
  - intros self settings fuel Hc. unfold BusinessHours.get_slots.
    by rewrite Hc.
  - destruct (Hmain morning_hours (settings_with 30)) as (l & Hl & _).
    { entry_wf_tac. }
    { done. }
    { unfold max_stride. simpl. lia. }
    split; [| split; by vm_compute].
    intros fuel Hfuel. rewrite (Hl fuel Hfuel).
    rewrite <- (Hl enough_fuel) by done. by vm_compute.
Qed.

Lemma get_slots_sequence_witness :
  ∃ l,
    (∀ fuel, (enough_fuel <= fuel)%nat →
       BusinessHours.get_slots fuel (settings_with 30) monday_hours
       = Returned l)
    ∧ slot_sequence monday_hours 30 (at_ 9 0) l
    ∧ (∀ l', slot_sequence monday_hours 30 (at_ 9 0) l' → l' = l).
Proof.
  apply (proj1 get_slots_sequence monday_hours (settings_with 30)).
  - entry_wf_tac.
  - reflexivity.
  - unfold max_stride. simpl. lia.
Defined.

(** C10: for a weekly entry that is not closed and a stride of at least
    one minute, every time that [get_slots] returns satisfies
    [is_open_at]: it is at or after [open_time], before [close_time] and
    outside the break; nothing is assumed about how the break fields
    relate to the opening hours.  [get_slots] does return when the
    stride is one that [timedelta] accepts (up to 1439999999999
    minutes). *)
Theorem slots_are_open (self : BusinessHours.t)
    (settings : option ScheduleSettings.t)
    (Hwf : entry_wf self)
    (Hopen : BusinessHours.is_closed self = false)
    (Hstride : 1 <= stride_of settings) :
  (stride_of settings <= max_stride →
   ∃ l, BusinessHours.get_slots enough_fuel settings self = Returned l)
  ∧ ∀ fuel l,
      BusinessHours.get_slots fuel settings self = Returned l →
      Forall (λ x,
        BusinessHours.is_open_at self x = true
        ∧ time_leb (BusinessHours.open_time self) x = true
        ∧ time_ltb x (BusinessHours.close_time self) = true
        ∧ ¬ inside_break self x) l.
Proof.
  split; [intros Hmax; by apply get_slots_returns |].
  intros fuel l Hl. rewrite get_slots_open in Hl by done.
  apply while_loop_sound in Hl as (l' & -> & Hseq). simpl.
  eapply Forall_impl.
  - eapply slot_sequence_open; eauto using time_leb_refl. exact (proj1 Hwf).
  - intros x Hx. split; [done |].
    apply is_open_at_iff in Hx as [[? ?] ?]; done.
Qed.

Lemma slots_are_open_witness :
  Forall (λ x, BusinessHours.is_open_at monday_hours x = true)
    [at_ 9 0; at_ 10 0; at_ 11 0; at_ 12 0; at_ 14 0; at_ 15 0; at_ 16 0;
     at_ 17 0].
Proof.
  assert (Hwf : entry_wf monday_hours) by entry_wf_tac.
  assert (Hstride : 1 <= stride_of (settings_with 60)) by (simpl; lia).
  eapply Forall_impl.
  - exact (proj2 (slots_are_open monday_hours (settings_with 60) Hwf eq_refl
                    Hstride) 20%nat _ eq_refl).
  - intros x Hx. exact (proj1 Hx).
Defined.

(** C6, at the input where the code departs from it: with a stride of 0
    minutes the loop of [get_slots] appends 09:00 again and again and has
    not returned after any number of iterations; with a stride of -600
    minutes it is stopped by the [ValueError] of the time constructor. *)
Theorem get_slots_zero_stride_never_returns :
  (∀ fuel,
     BusinessHours.get_slots fuel (settings_with 0) morning_hours = OutOfFuel)
  ∧ BusinessHours.get_slots enough_fuel (settings_with (-600)) morning_hours
    = Raised ValueError.
Proof.
  split; [| by vm_compute].
  intros fuel. rewrite get_slots_open by done.
  apply while_loop_zero_stride; try done; unfold time_wf; simpl; lia.
Qed.

(** ** Queries *)

Section Queries.

Context {A : Type} (R : relation A) `{!∀ x y, Decision (R x y)}.

Lemma first_Some_elem (l : list A) x : first R l = Some x → x ∈ l.
Proof.
  unfold first. intros Hx%head_Some_elem_of.
  by rewrite merge_sort_Permutation in Hx.
Qed.

Lemma first_None (l : list A) : first R l = None ↔ l = [].
Proof.
  unfold first. rewrite head_None. split.
  - intros Hnil. apply Permutation_nil_r.
    by rewrite <- (merge_sort_Permutation R l), Hnil.
  - by intros ->.
Qed.

Lemma first_None_elem (l : list A) : first R l = None ↔ ∀ x, x ∉ l.
Proof.
  rewrite first_None. split.
  - intros -> x. apply not_elem_of_nil.
  - intros Hall. destruct l as [| x l]; [done |]. destruct (Hall x). left.
Qed.

End Queries.

Section Lookups.

Lemma date_eqb_eq a b : date_eqb a b = true ↔ a = b.
Proof.
  unfold date_eqb, date_cmp. split.
  - destruct (lex _ _) eqn:E; [| done ..]. intros _.
    apply lex_eq in E as [E1 [E2 E3]%lex_eq].
    apply Z.compare_eq_iff in E1, E2, E3.
    destruct a, b; simpl in *; congruence.
  - intros ->. unfold lex. by rewrite !Z.compare_refl.
Qed.

Lemma override_rows_spec db h d o :
  o ∈ override_rows db h d ↔ o ∈ overrides db ∧ override_applies h d o.
Proof.
  unfold override_rows, override_applies. rewrite list_elem_of_filter.
  rewrite !andb_true_iff, bool_decide_eq_true, negb_true_iff. tauto.
Qed.

Lemma special_rows_spec db h d s :
  s ∈ special_rows db h d ↔ s ∈ special_days db ∧ special_exact h d s.
Proof.
  unfold special_rows, special_exact. rewrite list_elem_of_filter.
  rewrite !andb_true_iff, bool_decide_eq_true, negb_true_iff, date_eqb_eq.
  tauto.
Qed.

Lemma recurring_rows_spec db h d s :
  s ∈ recurring_rows db h d ↔ s ∈ special_days db ∧ special_recurs h d s.
Proof.
  unfold recurring_rows, special_recurs. rewrite list_elem_of_filter.
  rewrite !andb_true_iff, bool_decide_eq_true, negb_true_iff, !Z.eqb_eq.
  tauto.
Qed.

Lemma hours_rows_spec db h wd b :
  b ∈ hours_rows db h wd ↔ b ∈ business_hours db ∧ weekly_applies h wd b.
Proof.
  unfold hours_rows, weekly_applies. rewrite list_elem_of_filter.
  rewrite !andb_true_iff, bool_decide_eq_true, negb_true_iff, Z.eqb_eq.
  tauto.
Qed.

(** Rows with pairwise different keys: at most one row has a given key. *)
Lemma filter_unique_key {A K : Type} (key : A → K) (P : A → Prop)
    `{!∀ x, Decision (P x)} (k : K) (l : list A) :
  NoDup (key <$> l) → (∀ x, P x → key x = k) →
  filter P l = [] ∨ ∃ x, filter P l = [x].
Proof.
  intros Hnd Hkey. induction l as [| y l IH]; [by left |].
  apply NoDup_cons in Hnd as [Hy Hnd]. specialize (IH Hnd).
  destruct (decide (P y)) as [HP | HP].
  - rewrite filter_cons_True by done. right. exists y. f_equal.
    destruct IH as [IH | [x IH]]; [done |]. exfalso. apply Hy.
    assert (Hx : x ∈ filter P l) by (rewrite IH; left).
    apply list_elem_of_filter in Hx as [HPx Hx].
    apply list_elem_of_fmap. exists x. split; [| done].
    by rewrite (Hkey y HP), (Hkey x HPx).
  - by rewrite filter_cons_False.
Qed.

Lemma hours_rows_unique db h wd :
  unique_together db →
  hours_rows db h wd = [] ∨ ∃ b, hours_rows db h wd = [b].
Proof.
  intros Hu. unfold hours_rows.
  eapply (filter_unique_key _ _ (h, wd)); [exact Hu |].
  intros b. rewrite !andb_true_iff, bool_decide_eq_true, Z.eqb_eq.
  intros [[-> _] ->]. done.
Qed.

Lemma get_hours_rows db h wd :
  unique_together db →
  get (hours_rows db h wd)
  = match entry_for db h wd with Some b => Got b | None => DoesNotExist end.
Proof.
  intros Hu. unfold entry_for.
  by destruct (hours_rows_unique db h wd Hu) as [-> | [b ->]].
Qed.

Lemma entry_for_spec db h wd b :
  unique_together db →
  entry_for db h wd = Some b ↔ b ∈ business_hours db ∧ weekly_applies h wd b.
Proof.
  intros Hu. rewrite <- hours_rows_spec. unfold entry_for.
  destruct (hours_rows_unique db h wd Hu) as [-> | [b' ->]]; simpl.
  - split; [done | by intros ?%elem_of_nil].
  - rewrite list_elem_of_singleton. split; [by intros [= ->] | by intros ->].
Qed.

End Lookups.

(** ** The resolver *)

Section Resolver.

Variable db : database.
Variable h : hub.
Variable today : date.
Variable now : time.

(** The view, tier by tier. *)
Lemma is_open_now_tiers :
  is_open_now db h today now =
  match find_override db h today ≫= override_tier now with
  | Some r => Returned (respond today now r)
  | None =>
      match find_special db h today ≫= special_tier now with
      | Some r => Returned (respond today now r)
      | None =>
          match find_recurring db h today ≫= special_tier now with
          | Some r => Returned (respond today now r)
          | None =>
              match get (hours_rows db h (weekday today)) with
              | Got e => Returned (respond today now (weekly_tier now (Some e)))
              | DoesNotExist => Returned (respond today now (weekly_tier now None))
              | Multiple => Raised MultipleObjectsReturned
              end
          end
      end
  end.
Proof.
  unfold is_open_now, override_tier, special_tier, tier, weekly_tier,
    respond, set_reason, set_is_open, truthy.
  destruct (find_override db h today) as [o |]; simpl;
    [ destruct (ScheduleOverride.is_closed o); [done |];
      destruct (ScheduleOverride.open_time o),
               (ScheduleOverride.close_time o); simpl; try done |];
    (destruct (find_special db h today) as [s |]; simpl;
     [ destruct (SpecialDay.is_closed s); [done |];
       destruct (SpecialDay.open_time s), (SpecialDay.close_time s);
       simpl; try done |]);
    (destruct (find_recurring db h today) as [s' |]; simpl;
     [ destruct (SpecialDay.is_closed s'); [done |];
       destruct (SpecialDay.open_time s'), (SpecialDay.close_time s');
       simpl; try done |]);
    (destruct (get (hours_rows db h (weekday today))) as [e | |];
     simpl; try done;
     unfold BusinessHours.is_open_at;
     destruct (BusinessHours.is_closed e); simpl; [done |];
     by destruct (negb _); [| destruct (BusinessHours.break_window e)
                                as [[bs be] |]; [destruct (_ && _) |]]).
Qed.

End Resolver.

(** C1: on the queried date the resolver applies the four tiers in order.
    Tier 1 uses an override of the tenant that is not deleted and whose
    date range holds the date, tier 2 the special day of that date, tier 3
    a recurring special day with the same month and day, tier 4 the weekly
    entry of the weekday.  In tiers 1 to 3 a closed entry answers
    [(false, reason or name)], an entry with both times set answers
    [(open_time <= instant < close_time, reason or name)], and any other
    entry lets the next tier decide.  Tier 4 answers "No hours configured",
    "Closed today", "Regular hours" or "Outside business hours".  An
    override that closes the date wins over a special day that opens it. *)
Theorem is_open_now_four_tiers (db : database) (h : hub) (today : date)
    (now : time) (Hunique : unique_together db) :
  let ov := find_override db h today in
  let sp := find_special db h today in
  let rc := find_recurring db h today in
  let wk := entry_for db h (weekday today) in
  (∃ st, is_open_now db h today now = Returned st
         ∧ (is_open st, reason st) = resolve now ov sp rc wk)
  ∧ ((∀ o, ov = Some o → o ∈ overrides db ∧ override_applies h today o)
     ∧ (ov = None ↔ ∀ o, o ∈ overrides db → ¬ override_applies h today o))
  ∧ ((∀ s, sp = Some s → s ∈ special_days db ∧ special_exact h today s)
     ∧ (sp = None ↔ ∀ s, s ∈ special_days db → ¬ special_exact h today s))
  ∧ ((∀ s, rc = Some s → s ∈ special_days db ∧ special_recurs h today s)
     ∧ (rc = None ↔ ∀ s, s ∈ special_days db → ¬ special_recurs h today s))
  ∧ (∀ b, wk = Some b ↔
          b ∈ business_hours db ∧ weekly_applies h (weekday today) b)
  ∧ (∀ o, ov = Some o → ScheduleOverride.is_closed o = true →
       ∃ st, is_open_now db h today now = Returned st
             ∧ is_open st = false
             ∧ reason st = ScheduleOverride.reason o)
  ∧ is_open_now db_closure 1%N (Date 2026 12 25) (at_ 11 0)
    = Returned (Status false "Holiday closure" (Date 2026 12 25) (11, 0)).
Proof.
  intros ov sp rc wk. split; [| split; [| split; [| split; [| split; [| split]]]]].
  - rewrite is_open_now_tiers, get_hours_rows by done.
    unfold resolve. fold ov sp rc wk.
    destruct (ov ≫= override_tier now) as [[b r] |]; [by eexists |].
    destruct (sp ≫= special_tier now) as [[b r] |]; [by eexists |].
    destruct (rc ≫= special_tier now) as [[b r] |]; [by eexists |].
    destruct wk as [e |];
      (eexists; split; [reflexivity | symmetry; apply surjective_pairing]).
  - split.
    + intros o Ho. apply override_rows_spec. by eapply first_Some_elem.
    + unfold ov, find_override. rewrite first_None_elem.
      split; intros Hall o; specialize (Hall o);
        rewrite override_rows_spec in *; tauto.
  - split.
    + intros s Hs. apply special_rows_spec. by eapply first_Some_elem.
    + unfold sp, find_special. rewrite first_None_elem.
      split; intros Hall s; specialize (Hall s);
        rewrite special_rows_spec in *; tauto.
  - split.
    + intros s Hs. apply recurring_rows_spec. by eapply first_Some_elem.
    + unfold rc, find_recurring. rewrite first_None_elem.
      split; intros Hall s; specialize (Hall s);
        rewrite recurring_rows_spec in *; tauto.
  - intros b. by apply entry_for_spec.
  - intros o Ho Hc. rewrite is_open_now_tiers. fold ov. rewrite Ho. simpl.
    unfold override_tier, tier. rewrite Hc. by eexists.
  - by vm_compute.
Qed.

Lemma is_open_now_four_tiers_witness :
  unique_together db_closure
  ∧ ∃ st, is_open_now db_closure 1%N (Date 2026 12 25) (at_ 11 0) = Returned st
          ∧ (is_open st, reason st)
            = resolve (at_ 11 0)
                (find_override db_closure 1%N (Date 2026 12 25))
                (find_special db_closure 1%N (Date 2026 12 25))
                (find_recurring db_closure 1%N (Date 2026 12 25))
                (entry_for db_closure 1%N (weekday (Date 2026 12 25))).
Proof.
  assert (Hu : unique_together db_closure).
  { unfold unique_together. simpl. apply NoDup_singleton. }
  split; [exact Hu |].
  exact (proj1 (is_open_now_four_tiers db_closure 1%N (Date 2026 12 25)
                  (at_ 11 0) Hu)).
Defined.

(** C8: the rows that tier 3 chooses from on a date are the special days
    of the tenant that are not deleted, recur yearly and have the month
    and the day of the date; the year of the stored date plays no part.
    Tier 3 finds a row exactly when there is such a row.  A recurring
    Christmas dated 2026-12-25 closes 2027-12-25 and 2025-12-25 and leaves
    2026-12-24 to the weekly hours. *)
Theorem recurring_special_day_matches_month_and_day :
  (∀ db h d s,
     s ∈ recurring_rows db h d ↔ s ∈ special_days db ∧ special_recurs h d s)
  ∧ (∀ db h d s,
       find_recurring db h d = Some s →
       s ∈ special_days db ∧ special_recurs h d s)
  ∧ (∀ db h d s,
       s ∈ special_days db → special_recurs h d s →
       is_Some (find_recurring db h d))
  ∧ (∀ h y y' m d' s,
       special_recurs h (Date y m d') s ↔ special_recurs h (Date y' m d') s)
  ∧ (find_recurring db_christmas 1%N (Date 2027 12 25) = Some christmas
     ∧ find_recurring db_christmas 1%N (Date 2025 12 25) = Some christmas
     ∧ find_recurring db_christmas 1%N (Date 2026 12 24) = None)
  ∧ (is_open_now db_christmas 1%N (Date 2027 12 25) (at_ 10 0)
     = Returned (Status false "Christmas" (Date 2027 12 25) (10, 0))
     ∧ is_open_now db_christmas 1%N (Date 2025 12 25) (at_ 10 0)
       = Returned (Status false "Christmas" (Date 2025 12 25) (10, 0))
     ∧ is_open_now db_christmas 1%N (Date 2026 12 24) (at_ 10 0)
       = Returned (Status true "Regular hours" (Date 2026 12 24) (10, 0))).
Proof.
  split; [exact recurring_rows_spec |].
  split.
  { intros db h d s Hs. apply recurring_rows_spec. by eapply first_Some_elem. }
  split.
  { intros db h d s Hs Hrec. unfold find_recurring, first.
    apply head_is_Some. intros Hnil.
    assert (Hin : s ∈ recurring_rows db h d) by by apply recurring_rows_spec.
    rewrite <- (merge_sort_Permutation by_date), Hnil in Hin.
    by apply elem_of_nil in Hin. }
  split.
  { intros h y y' m d' s. reflexivity. }
  split; by vm_compute.
Qed.

Lemma recurring_special_day_matches_month_and_day_witness :
  christmas ∈ special_days db_christmas
  ∧ special_recurs 1%N (Date 2031 12 25) christmas
  ∧ is_Some (find_recurring db_christmas 1%N (Date 2031 12 25)).
Proof.
  assert (Hin : christmas ∈ special_days db_christmas) by (simpl; left).
  assert (Hrec : special_recurs 1%N (Date 2031 12 25) christmas)
    by (repeat split).
  split; [exact Hin |]. split; [exact Hrec |].
  exact (proj1 (proj2 (proj2 recurring_special_day_matches_month_and_day))
           db_christmas 1%N (Date 2031 12 25) christmas Hin Hrec).
Defined.

(** The claim of C9 fails: an override that is not closed, opens at 00:00
    and closes at 12:00 decides tier 1.  At 10:00 the answer is open with
    the reason of the override; were the tier transparent, the answer
    would be that of the same tables without the override, "No hours
    configured". *)
Lemma midnight_override_decides :
  find_override db_night 1%N (Date 2026 7 1) = Some night_override
  ∧ ScheduleOverride.is_closed night_override = false
  ∧ ScheduleOverride.open_time night_override = Some (at_ 0 0)
  ∧ ScheduleOverride.close_time night_override = Some (at_ 12 0)
  ∧ is_open_now db_night 1%N (Date 2026 7 1) (at_ 10 0)
    = Returned (Status true "Night shift" (Date 2026 7 1) (10, 0))
  ∧ is_open_now (Database [] [] []) 1%N (Date 2026 7 1) (at_ 10 0)
    = Returned (Status false "No hours configured" (Date 2026 7 1) (10, 0)).
Proof. repeat split; by vm_compute. Qed.

(** C9, amended: the presence guards of tiers 1 to 3 ask only whether the
    two time fields are set, and a time equal to midnight counts as set.
    An override or special day that is not closed and has both times set,
    00:00 included, decides its tier with
    [(open_time <= instant < close_time, reason or name)] whenever the
    tiers before it are transparent. *)
Theorem midnight_counts_as_set (db : database) (h : hub) (today : date)
    (now ot ct : time) :
  truthy (Some (at_ 0 0)) = true
  ∧ (∀ o,
       find_override db h today = Some o →
       ScheduleOverride.is_closed o = false →
       ScheduleOverride.open_time o = Some ot →
       ScheduleOverride.close_time o = Some ct →
       is_open_now db h today now
       = Returned (Status (time_leb ot now && time_ltb now ct)
                     (ScheduleOverride.reason o) today (hour now, minute now)))
  ∧ (∀ s,
       find_override db h today ≫= override_tier now = None →
       find_special db h today = Some s →
       SpecialDay.is_closed s = false →
       SpecialDay.open_time s = Some ot →
       SpecialDay.close_time s = Some ct →
       is_open_now db h today now
       = Returned (Status (time_leb ot now && time_ltb now ct)
                     (SpecialDay.name s) today (hour now, minute now)))
  ∧ (∀ s,
       find_override db h today ≫= override_tier now = None →
       find_special db h today ≫= special_tier now = None →
       find_recurring db h today = Some s →
       SpecialDay.is_closed s = false →
       SpecialDay.open_time s = Some ot →
       SpecialDay.close_time s = Some ct →
       is_open_now db h today now
       = Returned (Status (time_leb ot now && time_ltb now ct)
                     (SpecialDay.name s) today (hour now, minute now))).
Proof.
  split; [done |]. split; [| split].
  - intros o Ho Hc Hot Hct. rewrite is_open_now_tiers, Ho. simpl.
    unfold override_tier, tier. by rewrite Hc, Hot, Hct.
  - intros s Hov Hs Hc Hot Hct. rewrite is_open_now_tiers, Hov, Hs. simpl.
    unfold special_tier, tier. by rewrite Hc, Hot, Hct.
  - intros s Hov Hsp Hs Hc Hot Hct.
    rewrite is_open_now_tiers, Hov, Hsp, Hs. simpl.
    unfold special_tier, tier. by rewrite Hc, Hot, Hct.
Qed.

Lemma midnight_counts_as_set_witness :
  find_override db_night 1%N (Date 2026 7 1) = Some night_override
  ∧ is_open_now db_night 1%N (Date 2026 7 1) (at_ 10 0)
    = Returned (Status (time_leb (at_ 0 0) (at_ 10 0)
                        && time_ltb (at_ 10 0) (at_ 12 0))
                  "Night shift" (Date 2026 7 1) (10, 0)).
Proof.
  split; [reflexivity |].
  exact (proj1 (proj2 (midnight_counts_as_set db_night 1%N (Date 2026 7 1)
                         (at_ 10 0) (at_ 0 0) (at_ 12 0)))
           night_override eq_refl eq_refl eq_refl eq_refl).
Defined.

(** C3, at the input where the code departs from it: on Saturday
    2027-12-25 at 10:00, with weekly hours 09:00-18:00 and a recurring
    closed Christmas stored for 2026-12-25, [is_open_now] answers closed
    while the dashboard shows open: the dashboard looks up the special day
    of the exact date only. *)
Theorem dashboard_misses_recurring_special_day :
  is_open_now db_christmas 1%N (Date 2027 12 25) (at_ 10 0)
  = Returned (Status false "Christmas" (Date 2027 12 25) (10, 0))
  ∧ ctx_is_open (dashboard db_christmas 1%N (Date 2027 12 25) (at_ 10 0))
    = true
  ∧ special_today (dashboard db_christmas 1%N (Date 2027 12 25) (at_ 10 0))
    = None.
Proof. repeat split; by vm_compute. Qed.

(** ** The dashboard *)

Section Dashboard.

Lemma hours_by_day_snoc l b :
  hours_by_day (l ++ [b])
  = <[BusinessHours.day_of_week b := b]> (hours_by_day l).
Proof. unfold hours_by_day. by rewrite foldl_app. Qed.

Lemma hours_by_day_Some l wd b :
  hours_by_day l !! wd = Some b → b ∈ l ∧ BusinessHours.day_of_week b = wd.
Proof.
  induction l as [| x l IH] using rev_ind.
  - unfold hours_by_day. simpl. by rewrite lookup_empty.
  - rewrite hours_by_day_snoc.
    destruct (decide (BusinessHours.day_of_week x = wd)) as [<- | Hne].
    + rewrite lookup_insert_eq. intros [= <-].
      split; [| done]. apply elem_of_app. right. left.
    + rewrite lookup_insert_ne by done. intros [Hin Hd]%IH.
      split; [| done]. apply elem_of_app. by left.
Qed.

Lemma hours_by_day_is_Some l b :
  b ∈ l → is_Some (hours_by_day l !! BusinessHours.day_of_week b).
Proof.
  induction l as [| x l IH] using rev_ind.
  - by intros ?%elem_of_nil.
  - rewrite hours_by_day_snoc.
    intros [Hin | ->%list_elem_of_singleton]%elem_of_app.
    + destruct (decide (BusinessHours.day_of_week x
                        = BusinessHours.day_of_week b)) as [-> | Hne].
      * rewrite lookup_insert_eq. by eexists.
      * rewrite lookup_insert_ne by done. by apply IH.
    + rewrite lookup_insert_eq. by eexists.
Qed.

(** Under the unique constraint the dictionary of the dashboard and the
    [get] of [is_open_now] find the same weekly entry. *)
Lemma dashboard_today_hours db h today now :
  unique_together db →
  today_hours (dashboard db h today now) = entry_for db h (weekday today).
Proof.
  intros Hu. unfold dashboard. simpl.
  set (rows := merge_sort by_day_of_week _).
  assert (Hrows : ∀ b, b ∈ rows ↔
            b ∈ business_hours db
            ∧ BusinessHours.hub_id b = h
            ∧ BusinessHours.is_deleted b = false).
  { intros b. unfold rows. rewrite merge_sort_Permutation.
    rewrite list_elem_of_filter, andb_true_iff, bool_decide_eq_true,
      negb_true_iff. tauto. }
  destruct (hours_by_day rows !! weekday today) as [b |] eqn:E.
  - apply hours_by_day_Some in E as [Hin Hd]. symmetry.
    apply entry_for_spec; [done |]. apply Hrows in Hin. unfold weekly_applies.
    tauto.
  - destruct (entry_for db h (weekday today)) as [b |] eqn:E'; [| done].
    apply entry_for_spec in E' as [Hin (Hh & Hdel & Hd)]; [| done].
    assert (Hb : b ∈ rows) by (apply Hrows; tauto).
    apply hours_by_day_is_Some in Hb. rewrite Hd, E in Hb.
    by destruct Hb.
Qed.

(** Where no recurring special day decides tier 3, the dashboard shows
    what [is_open_now] answers. *)
Lemma dashboard_agrees_without_recurring db h today now :
  unique_together db →
  find_recurring db h today ≫= special_tier now = None →
  ∃ st, is_open_now db h today now = Returned st
        ∧ ctx_is_open (dashboard db h today now) = is_open st.
Proof.
  intros Hu Hrec.
  pose proof (dashboard_today_hours db h today now Hu) as Hth.
  rewrite is_open_now_tiers, Hrec, get_hours_rows by done.
  unfold dashboard in *. simpl in *. rewrite Hth.
  unfold override_tier, special_tier, tier, weekly_tier, truthy.
  destruct (find_override db h today) as [o |]; simpl;
    [ destruct (ScheduleOverride.is_closed o); [by eexists |];
      destruct (ScheduleOverride.open_time o),
               (ScheduleOverride.close_time o); simpl; try by eexists |];
    (destruct (find_special db h today) as [s |]; simpl;
     [ destruct (SpecialDay.is_closed s); [by eexists |];
       destruct (SpecialDay.open_time s), (SpecialDay.close_time s);
       simpl; try by eexists |]);
    (destruct (entry_for db h (weekday today)) as [e |]; simpl;
     [| by eexists];
     destruct (BusinessHours.is_closed e); simpl; [by eexists |];
     destruct (BusinessHours.is_open_at e now); by eexists).
Qed.

End Dashboard.

(** ** The orders, spelled out *)

Section Orders.

Lemma time_cmp_spec a b :
  match time_cmp a b with
  | Lt => time_lt a b
  | Eq => a = b
  | Gt => time_lt b a
  end.
Proof.
  destruct a as [h1 m1 s1 u1], b as [h2 m2 s2 u2].
  unfold time_cmp, lex, time_lt; simpl.
  destruct (Z.compare_spec h1 h2);
    destruct (Z.compare_spec m1 m2);
    destruct (Z.compare_spec s1 s2);
    destruct (Z.compare_spec u1 u2); subst; first [done | lia].
Qed.

Lemma time_lt_irrefl a : ¬ time_lt a a.
Proof. unfold time_lt. lia. Qed.

Lemma time_lt_asym a b : time_lt a b → ¬ time_lt b a.
Proof. unfold time_lt. lia. Qed.

Lemma time_ltb_lt a b : time_ltb a b = true ↔ time_lt a b.
Proof.
  unfold time_ltb. pose proof (time_cmp_spec a b) as H.
  destruct (time_cmp a b); split; try done.
  - intros Hlt. subst. by apply time_lt_irrefl in Hlt.
  - intros Hlt. by apply time_lt_asym in Hlt.
Qed.

Lemma time_leb_le a b : time_leb a b = true ↔ time_le a b.
Proof.
  unfold time_leb, time_le. pose proof (time_cmp_spec a b) as H.
  destruct (time_cmp a b); split; try done; auto.
  intros [Hlt | ->].
  - by apply time_lt_asym in Hlt.
  - by apply time_lt_irrefl in H.
Qed.

Lemma time_leb_false a b : time_leb a b = false ↔ time_lt b a.
Proof.
  unfold time_leb. pose proof (time_cmp_spec a b) as H.
  destruct (time_cmp a b); split; try done.
  - intros Hlt. subst. by apply time_lt_irrefl in Hlt.
  - intros Hlt. by apply time_lt_asym in Hlt.
Qed.

Lemma time_ltb_false a b : time_ltb a b = false ↔ time_le b a.
Proof.
  unfold time_ltb, time_le. pose proof (time_cmp_spec a b) as H.
  destruct (time_cmp a b); split; try done; auto.
  intros [Hlt | ->].
  - by apply time_lt_asym in Hlt.
  - by apply time_lt_irrefl in H.
Qed.

Lemma time_lt_trans a b c : time_lt a b → time_lt b c → time_lt a c.
Proof. unfold time_lt. lia. Qed.

Lemma time_le_lt_trans a b c : time_le a b → time_lt b c → time_lt a c.
Proof. intros [H | ->]; [apply time_lt_trans, H | done]. Qed.

Lemma time_lt_le_trans a b c : time_lt a b → time_le b c → time_lt a c.
Proof. intros H [H' | <-]; [by eapply time_lt_trans | done]. Qed.

Lemma date_cmp_spec a b :
  match date_cmp a b with
  | Lt => date_le a b ∧ a ≠ b
  | Eq => a = b
  | Gt => ¬ date_le a b
  end.
Proof.
  destruct a as [y1 m1 d1], b as [y2 m2 d2].
  unfold date_cmp, lex, date_le; simpl.
  destruct (Z.compare_spec y1 y2);
    destruct (Z.compare_spec m1 m2);
    destruct (Z.compare_spec d1 d2); subst;
    first [done | lia | split; [lia | intros [=]; lia]].
Qed.

Lemma date_le_refl a : date_le a a.
Proof. unfold date_le. lia. Qed.

Lemma date_le_trans a b c : date_le a b → date_le b c → date_le a c.
Proof. unfold date_le. lia. Qed.

Lemma date_le_total a b : date_le a b ∨ date_le b a.
Proof. unfold date_le. lia. Qed.

Lemma date_leb_le a b : date_leb a b = true ↔ date_le a b.
Proof.
  unfold date_leb. pose proof (date_cmp_spec a b) as H.
  destruct (date_cmp a b); split; try done.
  - intros _. subst. apply date_le_refl.
  - intros _. apply H.
Qed.

Lemma date_gtb_not_le a b : date_gtb a b = true ↔ ¬ date_le a b.
Proof.
  unfold date_gtb. pose proof (date_cmp_spec a b) as H.
  destruct (date_cmp a b); split; try done.
  - intros Hn. subst. destruct Hn. apply date_le_refl.
  - intros Hn. by destruct H.
Qed.

#[global] Instance by_date_trans : Transitive by_date.
Proof.
  intros a b c. unfold by_date. rewrite !date_leb_le. apply date_le_trans.
Qed.

#[global] Instance by_date_total : Total by_date.
Proof.
  intros a b. unfold by_date. rewrite !date_leb_le. apply date_le_total.
Qed.

#[global] Instance by_start_date_desc_trans : Transitive by_start_date_desc.
Proof.
  intros a b c. unfold by_start_date_desc. rewrite !date_leb_le.
  intros H1 H2. by eapply date_le_trans.
Qed.

#[global] Instance by_start_date_desc_total : Total by_start_date_desc.
Proof.
  intros a b. unfold by_start_date_desc. rewrite !date_leb_le.
  apply date_le_total.
Qed.

#[global] Instance by_day_of_week_trans : Transitive by_day_of_week.
Proof. intros a b c. unfold by_day_of_week. lia. Qed.

#[global] Instance by_day_of_week_total : Total by_day_of_week.
Proof. intros a b. unfold by_day_of_week. lia. Qed.

End Orders.

(** ** More on validation *)

(** When a weekly entry passes [clean]. *)
Lemma clean_valid_iff (self : BusinessHours.t) :
  BusinessHours.clean self = Valid ↔
  BusinessHours.is_closed self = true
  ∨ (time_lt (BusinessHours.open_time self) (BusinessHours.close_time self)
     ∧ ∀ bs be,
         BusinessHours.break_start self = Some bs →
         BusinessHours.break_end self = Some be →
         time_le (BusinessHours.open_time self) bs
         ∧ time_lt bs be
         ∧ time_le be (BusinessHours.close_time self)).
Proof.
  unfold BusinessHours.clean.
  destruct (BusinessHours.is_closed self); simpl; [by split; auto |].
  unfold time_geb, time_gtb.
  destruct (time_leb (BusinessHours.close_time self)
              (BusinessHours.open_time self)) eqn:Hoc.
  { apply time_leb_le in Hoc. split; [done |].
    intros [? | [Hlt _]]; [done |]. exfalso.
    eapply time_lt_irrefl, time_lt_le_trans; eauto. }
  apply time_leb_false in Hoc.
  destruct (BusinessHours.break_window self) as [[bs be] |] eqn:Hw.
  - apply break_window_Some in Hw as [Hs He].
    destruct (time_leb be bs) eqn:H1.
    { apply time_leb_le in H1. split; [done |].
      intros [? | [_ Hb]]; [done |]. destruct (Hb bs be Hs He) as (_ & Hlt & _).
      exfalso. eapply time_lt_irrefl, time_lt_le_trans; eauto. }
    apply time_leb_false in H1.
    destruct (time_ltb bs (BusinessHours.open_time self)) eqn:H2.
    { apply time_ltb_lt in H2. split; [done |].
      intros [? | [_ Hb]]; [done |]. destruct (Hb bs be Hs He) as (Hle & _).
      exfalso. eapply time_lt_irrefl, time_lt_le_trans; eauto. }
    apply time_ltb_false in H2.
    destruct (time_ltb (BusinessHours.close_time self) be) eqn:H3.
    { apply time_ltb_lt in H3. split; [done |].
      intros [? | [_ Hb]]; [done |]. destruct (Hb bs be Hs He) as (_ & _ & Hle).
      exfalso. eapply time_lt_irrefl, time_lt_le_trans; eauto. }
    apply time_ltb_false in H3.
    split; [| done]. intros _. right. split; [done |].
    intros bs' be' Hs' He'. rewrite Hs in Hs'. rewrite He in He'.
    by simplify_eq.
  - split; [| done]. intros _. right. split; [done |].
    intros bs be Hs He.
    apply break_window_None in Hw as [Hw | Hw]; congruence.
Qed.

(** X1: a weekly entry passes [BusinessHours.clean] exactly when it is
    closed, or its [open_time] is before its [close_time] and a break with
    both ends set has [open_time <= break_start < break_end <= close_time].
    A break with one end missing is not checked. *)
Theorem business_hours_clean_valid_iff (self : BusinessHours.t) :
  BusinessHours.clean self = Valid ↔
  BusinessHours.is_closed self = true
  ∨ (time_lt (BusinessHours.open_time self) (BusinessHours.close_time self)
     ∧ ∀ bs be,
         BusinessHours.break_start self = Some bs →
         BusinessHours.break_end self = Some be →
         time_le (BusinessHours.open_time self) bs
         ∧ time_lt bs be
         ∧ time_le be (BusinessHours.close_time self)).
Proof. exact (clean_valid_iff self). Qed.

Lemma business_hours_clean_valid_iff_witness :
  BusinessHours.clean monday_hours = Valid
  ∧ time_lt (BusinessHours.open_time monday_hours)
      (BusinessHours.close_time monday_hours).
Proof.
  split; [reflexivity |].
  destruct (proj1 (business_hours_clean_valid_iff monday_hours) eq_refl)
    as [Hc | [Hlt _]]; [discriminate Hc | exact Hlt].
Defined.

(** X2: a special day passes [SpecialDay.clean] exactly when it is closed,
    or both times are set and [open_time] is before [close_time]. *)
Theorem special_day_clean_valid_iff (self : SpecialDay.t) :
  SpecialDay.clean self = Valid ↔
  SpecialDay.is_closed self = true
  ∨ ∃ o c, SpecialDay.open_time self = Some o
           ∧ SpecialDay.close_time self = Some c
           ∧ time_lt o c.
Proof.
  unfold SpecialDay.clean.
  destruct (SpecialDay.is_closed self); simpl; [by split; auto |].
  destruct (SpecialDay.open_time self) as [o |],
           (SpecialDay.close_time self) as [c |]; simpl;
    try (split; [done | by intros [? | (? & ? & ? & ? & ?)]]).
  unfold time_geb. destruct (time_leb c o) eqn:Hco.
  - apply time_leb_le in Hco. split; [done |].
    intros [? | (o' & c' & [= <-] & [= <-] & Hlt)]; [done |].
    exfalso. eapply time_lt_irrefl, time_lt_le_trans; eauto.
  - apply time_leb_false in Hco. split; [| done].
    intros _. right. by exists o, c.
Qed.

Lemma special_day_clean_valid_iff_witness :
  SpecialDay.is_closed holiday = true ∧ SpecialDay.clean holiday = Valid.
Proof.
  split; [reflexivity |].
  exact (proj2 (special_day_clean_valid_iff holiday) (or_introl eq_refl)).
Defined.

(** X3: an override passes [ScheduleOverride.clean] exactly when its
    [start_date] is not after its [end_date].  An override that fails it
    covers no date, so no tier-1 lookup ever returns it; one that passes
    and is not deleted covers its first and its last day. *)
Theorem override_clean_and_coverage (o : ScheduleOverride.t) :
  (ScheduleOverride.clean o = Valid ↔
     date_le (ScheduleOverride.start_date o) (ScheduleOverride.end_date o))
  ∧ (∀ h d, override_applies h d o → ScheduleOverride.clean o = Valid)
  ∧ (∀ db h d, find_override db h d = Some o →
       ScheduleOverride.clean o = Valid)
  ∧ (ScheduleOverride.clean o = Valid →
     ScheduleOverride.is_deleted o = false →
     override_applies (ScheduleOverride.hub_id o)
       (ScheduleOverride.start_date o) o
     ∧ override_applies (ScheduleOverride.hub_id o)
         (ScheduleOverride.end_date o) o).
Proof.
  assert (Hiff : ScheduleOverride.clean o = Valid ↔
     date_le (ScheduleOverride.start_date o) (ScheduleOverride.end_date o)).
  { unfold ScheduleOverride.clean.
    destruct (date_gtb _ _) eqn:E.
    - apply date_gtb_not_le in E. by split.
    - split; [| done]. intros _.
      destruct (date_le_total (ScheduleOverride.start_date o)
                  (ScheduleOverride.end_date o)) as [H | H]; [done |].
      destruct (decide (date_le (ScheduleOverride.start_date o)
                          (ScheduleOverride.end_date o))) as [? | Hn];
        [done |].
      apply date_gtb_not_le in Hn. congruence. }
  assert (Happ : ∀ h d, override_applies h d o →
                        ScheduleOverride.clean o = Valid).
  { intros h d (_ & _ & H1 & H2). apply Hiff.
    apply date_leb_le in H1, H2. by eapply date_le_trans. }
  split; [done |]. split; [done |]. split.
  - intros db h d Ho. apply (Happ h d).
    apply first_Some_elem in Ho. by apply override_rows_spec in Ho as [_ ?].
  - intros Hv Hd. apply Hiff in Hv. unfold override_applies.
    rewrite !date_leb_le. eauto 10 using date_le_refl.
Qed.

Lemma override_clean_and_coverage_witness :
  ScheduleOverride.clean holiday_closure = Valid
  ∧ ScheduleOverride.is_deleted holiday_closure = false
  ∧ override_applies 1%N (Date 2026 12 20) holiday_closure
  ∧ override_applies 1%N (Date 2026 12 31) holiday_closure.
Proof.
  split; [reflexivity |]. split; [reflexivity |].
  exact (proj2 (proj2 (proj2 (override_clean_and_coverage holiday_closure)))
           eq_refl eq_refl).
Defined.

(** ** More on the slot generator *)

Section SlotsShape.

Variable self : BusinessHours.t.
Variable stride : Z.

Lemma time_lt_us a b :
  time_wf a → time_wf b → time_lt a b ↔ us_of a < us_of b.
Proof.
  intros Ha Hb. rewrite <- time_ltb_lt, time_ltb_us by done. apply Z.ltb_lt.
Qed.

Lemma first_slot_from_outside pos :
  time_ltb pos (BusinessHours.close_time self) = true →
  ¬ inside_break self pos →
  first_slot_from self pos = Some pos.
Proof.
  intros Hlt Hout. unfold first_slot_from. rewrite Hlt.
  destruct (BusinessHours.break_window self) as [[bs be] |] eqn:Hw; [| done].
  destruct (time_leb bs pos && time_ltb pos be) eqn:Hi; [| done].
  destruct Hout. apply inside_break_window. by exists bs, be.
Qed.

(** The sequence from a position starts with the first slot from it. *)
Lemma slot_sequence_head pos l :
  slot_sequence self stride pos l → head l = first_slot_from self pos.
Proof.
  induction 1 as [pos Hge | pos bs be l Hlt Hs He H1 H2 Hseq IH
                 | pos Hlt Hout Ht | pos l Hlt Hout Ht Hseq IH].
  - unfold first_slot_from. by rewrite Hge.
  - rewrite IH. unfold first_slot_from. rewrite Hlt.
    assert (Hw : BusinessHours.break_window self = Some (bs, be))
      by by apply break_window_Some.
    rewrite Hw, H1, H2, time_ltb_irrefl, andb_false_r. simpl.
    by destruct (time_ltb be (BusinessHours.close_time self)).
  - by rewrite first_slot_from_outside.
  - by rewrite first_slot_from_outside.
Qed.

(** Two slots in a row: a plain advance, or the jump over the break. *)
Lemma slot_sequence_step pos l :
  slot_sequence self stride pos l →
  ∀ i a b, l !! i = Some a → l !! S i = Some b →
    b = advance stride a
    ∨ (BusinessHours.break_end self = Some b
       ∧ inside_break self (advance stride a)).
Proof.
  induction 1 as [pos Hge | pos bs be l Hlt Hs He H1 H2 Hseq IH
                 | pos Hlt Hout Ht | pos l Hlt Hout Ht Hseq IH];
    intros i a b Ha Hb.
  - by rewrite lookup_nil in Ha.
  - exact (IH i a b Ha Hb).
  - by destruct i.
  - destruct i as [| i]; [| exact (IH i a b Ha Hb)].
    simpl in Ha, Hb. injection Ha as <-.
    rewrite <- head_lookup, (slot_sequence_head _ _ Hseq) in Hb.
    fold (advance stride pos) in Hb. unfold first_slot_from in Hb.
    destruct (time_ltb (advance stride pos) _); [| done].
    destruct (BusinessHours.break_window self) as [[bs be] |] eqn:Hw;
      [| left; congruence].
    destruct (time_leb bs _ && time_ltb _ be) eqn:Hi; [| left; congruence].
    destruct (time_ltb be _); [| done]. injection Hb as <-.
    right. apply break_window_Some in Hw as [Hs He]. split; [done |].
    apply andb_true_iff in Hi as [? ?]. by exists bs, be.
Qed.

Hypothesis Hwf : entry_wf self.
Hypothesis Hstride : 1 <= stride.

Lemma advance_wf pos :
  time_wf pos → 0 <= hour pos * 60 + minute pos + stride < 24 * 60 →
  time_wf (advance stride pos) ∧ us_of pos < us_of (advance stride pos)
  ∧ minute_of_day (advance stride pos) = minute_of_day pos + stride.
Proof.
  intros (? & ? & ? & ?) Ht. unfold advance, time_wf, us_of, minute_of_day.
  simpl. remember (hour pos * 60 + minute pos + stride) as total eqn:Htotal.
  repeat split; Z.div_mod_to_equations; lia.
Qed.

(** Slots come in strictly increasing order. *)
Lemma slot_sequence_sorted pos l :
  slot_sequence self stride pos l → time_wf pos →
  Forall (λ x, time_wf x ∧ us_of pos <= us_of x) l
  ∧ StronglySorted time_lt l.
Proof.
  destruct Hwf as (Hwo & Hwc & Hwbs & Hwbe).
  induction 1 as [pos Hge | pos bs be l Hlt Hs He H1 H2 Hseq IH
                 | pos Hlt Hout Ht | pos l Hlt Hout Ht Hseq IH];
    intros Hpos.
  - split; constructor.
  - destruct (IH (Hwbe be He)) as [Hall Hsorted]. split; [| done].
    rewrite time_ltb_us in H2 by auto.
    eapply Forall_impl; [exact Hall |]. simpl. intros x [? ?]. split; [done | lia].
  - split; [| by repeat constructor].
    constructor; [| constructor]. split; [done | lia].
  - destruct (advance_wf pos Hpos Ht) as (Hnext & Hlt' & _).
    destruct (IH Hnext) as [Hall Hsorted]. split.
    + constructor; [split; [done | lia] |].
      eapply Forall_impl; [exact Hall |]. simpl.
      intros x [? ?]. split; [done |]. unfold advance in *. lia.
    + constructor; [done |].
      eapply Forall_impl; [exact Hall |]. simpl. intros x [? ?].
      apply time_lt_us; [done .. |]. unfold advance in *. lia.
Qed.

(** The slots fit between [open_time] and [close_time], [stride] minutes
    apart or more. *)
Lemma slot_sequence_length pos l :
  slot_sequence self stride pos l → time_wf pos → l ≠ [] →
  (Z.of_nat (length l) - 1) * stride
  <= minute_of_day (BusinessHours.close_time self) - minute_of_day pos.
Proof.
  destruct Hwf as (Hwo & Hwc & Hwbs & Hwbe).
  assert (Hmin : ∀ x, time_wf x →
            time_ltb x (BusinessHours.close_time self) = true →
            minute_of_day x <= minute_of_day (BusinessHours.close_time self)).
  { intros x Hx Hlt. rewrite time_ltb_us in Hlt by done.
    destruct Hx as (? & ? & ? & ?), Hwc as (? & ? & ? & ?).
    unfold us_of, minute_of_day in *. lia. }
  induction 1 as [pos Hge | pos bs be l Hlt Hs He H1 H2 Hseq IH
                 | pos Hlt Hout Ht | pos l Hlt Hout Ht Hseq IH];
    intros Hpos Hne; try done.
  - specialize (IH (Hwbe be He) Hne).
    rewrite time_ltb_us in H2 by auto.
    pose proof (Hwbe be He) as (? & ? & ? & ?).
    destruct Hpos as (? & ? & ? & ?).
    unfold us_of, minute_of_day in *. lia.
  - simpl. specialize (Hmin pos Hpos Hlt). lia.
  - destruct (advance_wf pos Hpos Ht) as (Hnext & _ & Hmod).
    fold (advance stride pos) in Hseq, IH.
    destruct l as [| x l].
    + simpl. specialize (Hmin pos Hpos Hlt). lia.
    + specialize (IH Hnext ltac:(done)). rewrite Hmod in IH.
      simpl length in *. lia.
Qed.

End SlotsShape.

Section SlotsExtras.

Lemma StronglySorted_time_lt_NoDup l : StronglySorted time_lt l → NoDup l.
Proof.
  induction 1 as [| x l Hs IH Hall]; constructor; [| done].
  intros Hin. rewrite Forall_forall in Hall.
  by apply (time_lt_irrefl x), Hall.
Qed.

(** What [get_slots] returns for an entry that is not closed is a slot
    sequence from [open_time]. *)
Lemma get_slots_slot_sequence fuel settings self l :
  BusinessHours.is_closed self = false →
  BusinessHours.get_slots fuel settings self = Returned l →
  slot_sequence self (stride_of settings) (BusinessHours.open_time self) l.
Proof.
  intros Hc Hl. rewrite get_slots_open in Hl by done.
  by apply while_loop_sound in Hl as (l' & -> & Hseq).
Qed.

Lemma get_slots_closed fuel settings self l :
  BusinessHours.is_closed self = true →
  BusinessHours.get_slots fuel settings self = Returned l → l = [].
Proof.
  intros Hc. unfold BusinessHours.get_slots. rewrite Hc. by intros [= <-].
Qed.

End SlotsExtras.

(** X4: for a stride of at least one minute the slots that [get_slots]
    returns are in strictly increasing order and no slot is listed twice;
    [get_slots] does return when [timedelta] accepts the stride. *)
Theorem get_slots_strictly_increasing (self : BusinessHours.t)
    (settings : option ScheduleSettings.t)
    (Hwf : entry_wf self) (Hstride : 1 <= stride_of settings) :
  (stride_of settings <= max_stride →
   ∃ l, BusinessHours.get_slots enough_fuel settings self = Returned l)
  ∧ ∀ fuel l,
      BusinessHours.get_slots fuel settings self = Returned l →
      StronglySorted time_lt l ∧ NoDup l.
Proof.
  split; [intros Hmax; by apply get_slots_returns |].
  intros fuel l Hl.
  assert (Hs : StronglySorted time_lt l).
  { destruct (BusinessHours.is_closed self) eqn:Hc.
    - apply get_slots_closed in Hl as ->; [constructor | done].
    - apply get_slots_slot_sequence in Hl; [| done].
      by eapply slot_sequence_sorted; [| | | exact (proj1 Hwf)]. }
  split; [done | by apply StronglySorted_time_lt_NoDup].
Qed.

Lemma get_slots_strictly_increasing_witness :
  StronglySorted time_lt
    [at_ 9 0; at_ 10 0; at_ 11 0; at_ 12 0; at_ 14 0; at_ 15 0; at_ 16 0;
     at_ 17 0].
Proof.
  assert (Hwf : entry_wf monday_hours) by entry_wf_tac.
  assert (Hstride : 1 <= stride_of (settings_with 60)) by (simpl; lia).
  exact (proj1 (proj2 (get_slots_strictly_increasing monday_hours
                         (settings_with 60) Hwf Hstride) 20%nat _ eq_refl)).
Defined.

(** X5: the first slot that [get_slots] returns for an entry that is not
    closed is [open_time]; when [open_time] lies in the break it is
    [break_end]; and there is no slot at all when that first position is
    not before [close_time].  The stride is at least one minute, and
    [get_slots] does return when [timedelta] accepts it (up to
    1439999999999 minutes). *)
Theorem get_slots_first_slot (self : BusinessHours.t)
    (settings : option ScheduleSettings.t)
    (Hwf : entry_wf self) (Hstride : 1 <= stride_of settings)
    (Hopen : BusinessHours.is_closed self = false) :
  (stride_of settings <= max_stride →
   ∃ l, BusinessHours.get_slots enough_fuel settings self = Returned l)
  ∧ ∀ fuel l,
      BusinessHours.get_slots fuel settings self = Returned l →
      head l = first_slot self ∧ (l = [] ↔ first_slot self = None).
Proof.
  split; [intros Hmax; by apply get_slots_returns |].
  intros fuel l Hl. apply get_slots_slot_sequence in Hl; [| done].
  apply slot_sequence_head in Hl. fold (first_slot self) in Hl.
  split; [done |]. rewrite <- Hl. symmetry. apply head_None.
Qed.

Lemma get_slots_first_slot_witness :
  head [at_ 9 0; at_ 10 0; at_ 11 0; at_ 12 0; at_ 14 0; at_ 15 0; at_ 16 0;
        at_ 17 0]
  = first_slot monday_hours.
Proof.
  assert (Hwf : entry_wf monday_hours) by entry_wf_tac.
  assert (Hstride : 1 <= stride_of (settings_with 60)) by (simpl; lia).
  exact (proj1 (proj2 (get_slots_first_slot monday_hours (settings_with 60)
                         Hwf Hstride eq_refl) 20%nat _ eq_refl)).
Defined.

(** X6: two slots that follow each other in the result of [get_slots] are
    exactly one stride apart, counted in whole minutes from the hour and
    minute of the earlier slot, unless the later one is [break_end] and
    the stride led into the break.  Without a break all slots are one
    stride apart.  The stride is at least one minute, and [get_slots]
    does return when [timedelta] accepts it (up to 1439999999999
    minutes). *)
Theorem get_slots_spacing (self : BusinessHours.t)
    (settings : option ScheduleSettings.t)
    (Hwf : entry_wf self) (Hstride : 1 <= stride_of settings) :
  (stride_of settings <= max_stride →
   ∃ l, BusinessHours.get_slots enough_fuel settings self = Returned l)
  ∧ ∀ fuel l i a b,
      BusinessHours.get_slots fuel settings self = Returned l →
      l !! i = Some a → l !! S i = Some b →
      (b = advance (stride_of settings) a
       ∧ minute_of_day b = minute_of_day a + stride_of settings)
      ∨ (BusinessHours.break_end self = Some b
         ∧ inside_break self (advance (stride_of settings) a)).
Proof.
  split; [intros Hmax; by apply get_slots_returns |].
  intros fuel l i a b Hl Ha Hb.
  destruct (BusinessHours.is_closed self) eqn:Hc.
  { apply get_slots_closed in Hl as ->; [| done]. by rewrite lookup_nil in Ha. }
  apply get_slots_slot_sequence in Hl; [| done].
  destruct (slot_sequence_step _ _ _ _ Hl i a b Ha Hb) as [-> | ?];
    [left; split; [done |] | by right].
  destruct (slot_sequence_sorted _ _ Hwf Hstride _ _ Hl (proj1 Hwf))
    as [Hall _].
  rewrite Forall_forall in Hall.
  destruct (Hall _ (list_elem_of_lookup_2 _ _ _ Ha)) as [Hwa _].
  destruct (Hall _ (list_elem_of_lookup_2 _ _ _ Hb)) as [Hwb _].
  destruct Hwa as (? & ? & ? & ?), Hwb as (Hh & Hm & _ & _).
  unfold advance, minute_of_day in *. simpl in *.
  remember (hour a * 60 + minute a + stride_of settings) as total eqn:Htotal.
  Z.div_mod_to_equations; lia.
Qed.

Lemma get_slots_spacing_witness :
  (at_ 14 0 = advance 60 (at_ 12 0)
   ∧ minute_of_day (at_ 14 0) = minute_of_day (at_ 12 0) + 60)
  ∨ (BusinessHours.break_end monday_hours = Some (at_ 14 0)
     ∧ inside_break monday_hours (advance 60 (at_ 12 0))).
Proof.
  assert (Hwf : entry_wf monday_hours) by entry_wf_tac.
  assert (Hstride : 1 <= stride_of (settings_with 60)) by (simpl; lia).
  exact (proj2 (get_slots_spacing monday_hours (settings_with 60) Hwf Hstride)
           20%nat _ 3%nat (at_ 12 0) (at_ 14 0) eq_refl eq_refl eq_refl).
Defined.

(** X7: the number of slots is bounded by the opening hours and the
    stride: [(n - 1) * stride] minutes fit between the minute of
    [open_time] and the minute of [close_time].  The stride is at least
    one minute, and [get_slots] does return when [timedelta] accepts it
    (up to 1439999999999 minutes). *)
Theorem get_slots_count (self : BusinessHours.t)
    (settings : option ScheduleSettings.t)
    (Hwf : entry_wf self) (Hstride : 1 <= stride_of settings) :
  (stride_of settings <= max_stride →
   ∃ l, BusinessHours.get_slots enough_fuel settings self = Returned l)
  ∧ ∀ fuel l,
      BusinessHours.get_slots fuel settings self = Returned l → l ≠ [] →
      (Z.of_nat (length l) - 1) * stride_of settings
      <= minute_of_day (BusinessHours.close_time self)
         - minute_of_day (BusinessHours.open_time self).
Proof.
  split; [intros Hmax; by apply get_slots_returns |].
  intros fuel l Hl Hne.
  destruct (BusinessHours.is_closed self) eqn:Hc.
  { by apply get_slots_closed in Hl. }
  apply get_slots_slot_sequence in Hl; [| done].
  by eapply slot_sequence_length; [| | | exact (proj1 Hwf) |].
Qed.

Lemma get_slots_count_witness :
  (Z.of_nat (length [at_ 9 0; at_ 9 30; at_ 10 0; at_ 10 30; at_ 11 0;
                     at_ 11 30]) - 1) * 30
  <= minute_of_day (at_ 12 0) - minute_of_day (at_ 9 0).
Proof.
  assert (Hwf : entry_wf morning_hours) by entry_wf_tac.
  assert (Hstride : 1 <= stride_of (settings_with 30)) by (simpl; lia).
  exact (proj2 (get_slots_count morning_hours (settings_with 30) Hwf Hstride)
           20%nat _ eq_refl ltac:(discriminate)).
Defined.

(** ** More on the queries and the views *)

Section QueriesOrder.

Context {A : Type} (R : relation A) `{!∀ x y, Decision (R x y)}.
Context `{!Transitive R, !Total R}.

(** [first()] returns a row that comes before every other row in the
    ordering. *)
Lemma first_least (l : list A) x :
  first R l = Some x → ∀ y, y ∈ l → R x y.
Proof.
  unfold first. intros [l' Hl']%head_Some y Hy.
  pose proof (StronglySorted_merge_sort R l) as Hs.
  rewrite <- (merge_sort_Permutation R l), Hl' in Hy. rewrite Hl' in Hs.
  apply StronglySorted_cons in Hs as [Hall _].
  apply elem_of_cons in Hy as [-> | Hy].
  - by destruct (total R x x).
  - rewrite Forall_forall in Hall. by apply Hall.
Qed.

End QueriesOrder.

(** X8: where several rows qualify for a tier, the model ordering decides:
    tier 1 uses an applicable override with the latest [start_date], tier 3
    a matching recurring special day with the earliest stored date. *)
Theorem overlapping_rows_tie_break :
  (∀ db h d o o',
     find_override db h d = Some o →
     o' ∈ overrides db → override_applies h d o' →
     date_le (ScheduleOverride.start_date o') (ScheduleOverride.start_date o))
  ∧ (∀ db h d s s',
       find_recurring db h d = Some s →
       s' ∈ special_days db → special_recurs h d s' →
       date_le (SpecialDay.date_ s) (SpecialDay.date_ s')).
Proof.
  split.
  - intros db h d o o' Ho Hin Happ.
    assert (Hrow : o' ∈ override_rows db h d) by by apply override_rows_spec.
    apply date_leb_le. exact (first_least _ _ _ Ho _ Hrow).
  - intros db h d s s' Hs Hin Hrec.
    assert (Hrow : s' ∈ recurring_rows db h d) by by apply recurring_rows_spec.
    apply date_leb_le. exact (first_least _ _ _ Hs _ Hrow).
Qed.

Lemma overlapping_rows_tie_break_witness :
  find_override db_overlap 1%N (Date 2026 8 12) = Some august_closure
  ∧ summer_hours ∈ overrides db_overlap
  ∧ override_applies 1%N (Date 2026 8 12) summer_hours
  ∧ date_le (ScheduleOverride.start_date summer_hours)
      (ScheduleOverride.start_date august_closure).
Proof.
  assert (Hin : summer_hours ∈ overrides db_overlap) by (simpl; left).
  assert (Happ : override_applies 1%N (Date 2026 8 12) summer_hours)
    by (repeat split).
  split; [reflexivity |]. split; [exact Hin |]. split; [exact Happ |].
  exact (proj1 overlapping_rows_tie_break db_overlap 1%N (Date 2026 8 12)
           august_closure summer_hours eq_refl Hin Happ).
Defined.

Section Visibility.

Variable db : database.
Variable h : hub.

Lemma override_rows_visible d :
  override_rows (visible db h) h d = override_rows db h d.
Proof.
  unfold override_rows, visible. simpl. apply list_filter_filter_l.
  intros o. rewrite !andb_true_iff, bool_decide_eq_true, negb_true_iff. tauto.
Qed.

Lemma special_rows_visible d :
  special_rows (visible db h) h d = special_rows db h d.
Proof.
  unfold special_rows, visible. simpl. apply list_filter_filter_l.
  intros o. rewrite !andb_true_iff, bool_decide_eq_true, negb_true_iff. tauto.
Qed.

Lemma recurring_rows_visible d :
  recurring_rows (visible db h) h d = recurring_rows db h d.
Proof.
  unfold recurring_rows, visible. simpl. apply list_filter_filter_l.
  intros o. rewrite !andb_true_iff, bool_decide_eq_true, negb_true_iff. tauto.
Qed.

Lemma hours_rows_visible wd :
  hours_rows (visible db h) h wd = hours_rows db h wd.
Proof.
  unfold hours_rows, visible. simpl. apply list_filter_filter_l.
  intros o. rewrite !andb_true_iff, bool_decide_eq_true, negb_true_iff. tauto.
Qed.

Lemma dashboard_hours_visible :
  dashboard_hours (visible db h) h = dashboard_hours db h.
Proof.
  unfold dashboard_hours, visible. simpl. f_equal. apply list_filter_filter_l.
  intros o. rewrite !andb_true_iff, bool_decide_eq_true, negb_true_iff. tauto.
Qed.

End Visibility.

(** X9: rows that are soft-deleted and rows of other tenants have no
    effect on [is_open_now] and on the status of [dashboard]: both give
    the same result on the tables restricted to the live rows of the
    tenant. *)
Theorem views_see_live_rows_of_tenant (db : database) (h : hub)
    (today : date) (now : time) :
  is_open_now (visible db h) h today now = is_open_now db h today now
  ∧ dashboard (visible db h) h today now = dashboard db h today now.
Proof.
  split.
  - unfold is_open_now, find_override, find_special, find_recurring.
    by rewrite override_rows_visible, special_rows_visible,
      recurring_rows_visible, hours_rows_visible.
  - pose proof (dashboard_hours_visible db h) as Hh.
    unfold dashboard, find_override, find_special, dashboard_hours in *.
    by rewrite Hh, override_rows_visible, special_rows_visible.
Qed.

Section DashboardGrid.

Variable db : database.
Variable h : hub.
Hypothesis Hunique : unique_together db.

Lemma dashboard_hours_spec b :
  b ∈ dashboard_hours db h ↔
  b ∈ business_hours db
  ∧ BusinessHours.hub_id b = h ∧ BusinessHours.is_deleted b = false.
Proof.
  unfold dashboard_hours. rewrite merge_sort_Permutation.
  rewrite list_elem_of_filter, andb_true_iff, bool_decide_eq_true,
    negb_true_iff. tauto.
Qed.

(** The dictionary of the dashboard holds, for each day, the entry that
    the weekly lookup of that day finds. *)
Lemma hours_by_day_entry_for wd :
  hours_by_day (dashboard_hours db h) !! wd = entry_for db h wd.
Proof.
  destruct (hours_by_day (dashboard_hours db h) !! wd) as [b |] eqn:E.
  - apply hours_by_day_Some in E as [Hin Hd]. symmetry.
    apply entry_for_spec; [done |]. apply dashboard_hours_spec in Hin.
    unfold weekly_applies. tauto.
  - destruct (entry_for db h wd) as [b |] eqn:E'; [| done].
    apply entry_for_spec in E' as [Hin (Hh & Hdel & Hd)]; [| done].
    assert (Hb : b ∈ dashboard_hours db h)
      by (apply dashboard_hours_spec; tauto).
    apply hours_by_day_is_Some in Hb. rewrite Hd, E in Hb. by destruct Hb.
Qed.

End DashboardGrid.

Lemma weekday_range d : 0 <= weekday d <= 6.
Proof. unfold weekday. pose proof (Z.mod_pos_bound (toordinal d + 6) 7). lia. Qed.

(** X10: under the unique constraint of the weekly table the status of
    the dashboard is the answer of the resolver with tier 3 left out:
    override first, then the special day of the date, then the weekly
    entry.  It therefore equals the answer of [is_open_now] whenever no
    recurring special day decides tier 3. *)
Theorem dashboard_is_resolver_without_recurring (db : database) (h : hub)
    (today : date) (now : time) (Hunique : unique_together db) :
  ctx_is_open (dashboard db h today now)
  = (resolve now (find_override db h today) (find_special db h today) None
       (entry_for db h (weekday today))).1
  ∧ (find_recurring db h today ≫= special_tier now = None →
     ∃ st, is_open_now db h today now = Returned st
           ∧ ctx_is_open (dashboard db h today now) = is_open st).
Proof.
  split; [| by apply dashboard_agrees_without_recurring].
  pose proof (dashboard_today_hours db h today now Hunique) as Hth.
  unfold dashboard in *. simpl in *. rewrite Hth.
  unfold resolve, override_tier, special_tier, tier, weekly_tier, truthy.
  destruct (find_override db h today) as [o |]; simpl;
    [ destruct (ScheduleOverride.is_closed o); [done |];
      destruct (ScheduleOverride.open_time o),
               (ScheduleOverride.close_time o); simpl; try done |];
    (destruct (find_special db h today) as [s |]; simpl;
     [ destruct (SpecialDay.is_closed s); [done |];
       destruct (SpecialDay.open_time s), (SpecialDay.close_time s);
       simpl; try done |]);
    (destruct (entry_for db h (weekday today)) as [e |]; simpl; [| done];
     destruct (BusinessHours.is_closed e); simpl; [done |];
     by destruct (BusinessHours.is_open_at e now)).
Qed.

Lemma dashboard_is_resolver_without_recurring_witness :
  unique_together db_closure
  ∧ ctx_is_open (dashboard db_closure 1%N (Date 2026 12 25) (at_ 11 0))
    = (resolve (at_ 11 0) (find_override db_closure 1%N (Date 2026 12 25))
         (find_special db_closure 1%N (Date 2026 12 25)) None
         (entry_for db_closure 1%N (weekday (Date 2026 12 25)))).1.
Proof.
  assert (Hu : unique_together db_closure).
  { unfold unique_together. simpl. apply NoDup_singleton. }
  split; [exact Hu |].
  exact (proj1 (dashboard_is_resolver_without_recurring db_closure 1%N
                  (Date 2026 12 25) (at_ 11 0) Hu)).
Defined.

(** X11: under the unique constraint the week grid of the dashboard has
    one line for each of the seven days, Monday to Sunday, with the live
    weekly entry of the tenant for that day or nothing; the line of
    today's weekday holds the entry that the status is computed from.
    A row stored for a day number outside 0 to 6 is on no line. *)
Theorem dashboard_week_grid (db : database) (h : hub)
    (Hunique : unique_together db) :
  dashboard_week db h
  = (λ c, (c.1, c.2, entry_for db h c.1)) <$> DAY_OF_WEEK_CHOICES
  ∧ (∀ today now, ∃ label,
       dashboard_week db h !! Z.to_nat (weekday today)
       = Some (weekday today, label, today_hours (dashboard db h today now)))
  ∧ (∀ d label b, (d, label, Some b) ∈ dashboard_week db h →
       0 <= BusinessHours.day_of_week b <= 6
       ∧ BusinessHours.day_of_week b = d
       ∧ BusinessHours.hub_id b = h
       ∧ BusinessHours.is_deleted b = false).
Proof.
  assert (Heq : dashboard_week db h
    = (λ c, (c.1, c.2, entry_for db h c.1)) <$> DAY_OF_WEEK_CHOICES).
  { unfold dashboard_week. apply list_fmap_ext. intros i c _.
    by rewrite hours_by_day_entry_for. }
  split; [done |]. split.
  - intros today now. rewrite Heq, dashboard_today_hours by done.
    pose proof (weekday_range today) as Hr.
    assert (Hcase : weekday today = 0 ∨ weekday today = 1 ∨ weekday today = 2
                    ∨ weekday today = 3 ∨ weekday today = 4
                    ∨ weekday today = 5 ∨ weekday today = 6) by lia.
    destruct Hcase as [-> | [-> | [-> | [-> | [-> | [-> | ->]]]]]];
      by eexists.
  - intros d label b. rewrite Heq. unfold DAY_OF_WEEK_CHOICES. simpl.
    rewrite !elem_of_cons, elem_of_nil.
    intros Hin.
    assert (Hd : 0 <= d <= 6 ∧ entry_for db h d = Some b).
    { destruct Hin as [H | [H | [H | [H | [H | [H | [H | []]]]]]]];
        injection H as -> -> <-; (split; [lia | done]). }
    destruct Hd as [Hr He]. apply entry_for_spec in He as [_ (? & ? & ?)];
      [| done]. repeat split; (lia || done).
Qed.

Lemma dashboard_week_grid_witness :
  unique_together db_christmas
  ∧ dashboard_week db_christmas 1%N
    = (λ c, (c.1, c.2, entry_for db_christmas 1%N c.1))
        <$> DAY_OF_WEEK_CHOICES.
Proof.
  assert (Hu : unique_together db_christmas).
  { unfold unique_together. simpl.
    repeat (apply NoDup_cons; split;
            [rewrite ?elem_of_cons, elem_of_nil; intros H;
             repeat (destruct H as [H | H]; [discriminate H |]); exact H |]).
    apply NoDup_nil_2. }
  split; [exact Hu |].
  exact (proj1 (dashboard_week_grid db_christmas 1%N Hu)).
Defined.

(** X12: [next_special] of the dashboard is a live special day of the
    tenant dated today or later, and no such special day is dated earlier;
    it is missing exactly when there is no such special day. *)
Theorem next_special_is_earliest_upcoming (db : database) (h : hub)
    (today : date) :
  (∀ s, next_special db h today = Some s →
     s ∈ special_days db
     ∧ SpecialDay.hub_id s = h ∧ SpecialDay.is_deleted s = false
     ∧ date_le today (SpecialDay.date_ s)
     ∧ ∀ s', s' ∈ special_days db →
             SpecialDay.hub_id s' = h → SpecialDay.is_deleted s' = false →
             date_le today (SpecialDay.date_ s') →
             date_le (SpecialDay.date_ s) (SpecialDay.date_ s'))
  ∧ (next_special db h today = None ↔
     ∀ s, s ∈ special_days db →
          SpecialDay.hub_id s = h → SpecialDay.is_deleted s = false →
          ¬ date_le today (SpecialDay.date_ s)).
Proof.
  assert (Hrows : ∀ s, s ∈ upcoming_rows db h today ↔
     s ∈ special_days db
     ∧ SpecialDay.hub_id s = h ∧ SpecialDay.is_deleted s = false
     ∧ date_le today (SpecialDay.date_ s)).
  { intros s. unfold upcoming_rows. rewrite list_elem_of_filter.
    rewrite !andb_true_iff, bool_decide_eq_true, negb_true_iff, date_leb_le.
    tauto. }
  split.
  - intros s Hs. pose proof (first_Some_elem _ _ _ Hs) as Hin.
    apply Hrows in Hin as (? & ? & ? & ?). repeat split; try done.
    intros s' Hin' Hh' Hd' Hle'. apply date_leb_le.
    apply (first_least _ _ _ Hs). apply Hrows. tauto.
  - unfold next_special. rewrite first_None_elem. split.
    + intros Hall s Hin Hh Hd Hle. apply (Hall s), Hrows. tauto.
    + intros Hall s Hin. apply Hrows in Hin as (? & ? & ? & ?).
      by eapply Hall.
Qed.

Lemma next_special_is_earliest_upcoming_witness :
  next_special db_christmas 1%N (Date 2026 11 3) = Some christmas
  ∧ date_le (Date 2026 11 3) (SpecialDay.date_ christmas).
Proof.
  split; [reflexivity |].
  exact (proj1 (proj2 (proj2 (proj2
    (proj1 (next_special_is_earliest_upcoming db_christmas 1%N
              (Date 2026 11 3)) christmas eq_refl))))).
Defined.

Lemma StronglySorted_weaken {A : Type} (R1 R2 : relation A) (l : list A) :
  (∀ a b, R1 a b → R2 a b) → StronglySorted R1 l → StronglySorted R2 l.
Proof.
  intros Himp. induction 1 as [| x l Hs IH Hall]; constructor; [done |].
  eapply Forall_impl; [exact Hall |]. intros y. apply Himp.
Qed.

(** X13: the [special_days] view lists the live special days of the
    tenant, each as often as it is stored, by ascending date, and the
    live overrides of the tenant by descending start date; rows of other
    tenants and soft-deleted rows are not listed. *)
Theorem special_days_view_lists (db : database) (h : hub) :
  (special_days_list db h
   ≡ₚ filter (λ s, SpecialDay.hub_id s = h ∧ SpecialDay.is_deleted s = false)
        (special_days db)
   ∧ StronglySorted
       (λ a b, date_le (SpecialDay.date_ a) (SpecialDay.date_ b))
       (special_days_list db h))
  ∧ (overrides_list db h
     ≡ₚ filter (λ o, ScheduleOverride.hub_id o = h
                     ∧ ScheduleOverride.is_deleted o = false) (overrides db)
     ∧ StronglySorted
         (λ a b, date_le (ScheduleOverride.start_date b)
                   (ScheduleOverride.start_date a))
         (overrides_list db h)).
Proof.
  split; split.
  - unfold special_days_list. rewrite merge_sort_Permutation.
    erewrite list_filter_iff; [done |]. intros s. simpl.
    rewrite andb_true_iff, bool_decide_eq_true, negb_true_iff. tauto.
  - unfold special_days_list.
    eapply StronglySorted_weaken; [| apply (StronglySorted_merge_sort by_date)].
    intros a b. unfold by_date. by rewrite date_leb_le.
  - unfold overrides_list. rewrite merge_sort_Permutation.
    erewrite list_filter_iff; [done |]. intros s. simpl.
    rewrite andb_true_iff, bool_decide_eq_true, negb_true_iff. tauto.
  - unfold overrides_list.
    eapply StronglySorted_weaken;
      [| apply (StronglySorted_merge_sort by_start_date_desc)].
    intros a b. unfold by_start_date_desc. by rewrite date_leb_le.
Qed.

(** ** Settings *)

Section Settings.

Lemma settings_rows_spec table h s :
  s ∈ settings_rows table h ↔ s ∈ table ∧ ScheduleSettings.hub_id s = h.
Proof. unfold settings_rows. rewrite list_elem_of_filter. tauto. Qed.

Lemma settings_rows_unique table h :
  settings_unique table →
  settings_rows table h = [] ∨ ∃ s, settings_rows table h = [s].
Proof.
  intros Hu. unfold settings_rows.
  by eapply (filter_unique_key ScheduleSettings.hub_id _ h).
Qed.

Lemma save_settings_hubs s table :
  ScheduleSettings.hub_id <$> save_settings s table
  = ScheduleSettings.hub_id <$> table.
Proof.
  unfold save_settings. rewrite <- list_fmap_compose.
  apply list_fmap_ext. intros i r _. simpl. by case_decide.
Qed.

Lemma save_settings_rows s table h :
  settings_rows (save_settings s table) h
  = if decide (h = ScheduleSettings.hub_id s)
    then (λ _, s) <$> settings_rows table h
    else settings_rows table h.
Proof.
  unfold settings_rows, save_settings.
  induction table as [| r table IH]; [by case_decide |].
  rewrite fmap_cons, !filter_cons, IH.
  destruct (decide (ScheduleSettings.hub_id r = ScheduleSettings.hub_id s))
    as [Hrs | Hrs]; destruct (decide (h = ScheduleSettings.hub_id s))
    as [-> | Hh]; repeat case_decide; try done; congruence.
Qed.

Lemma get_settings_cases table h :
  settings_unique table →
  (settings_rows table h = []
   ∧ get_settings table h
     = Returned (default_settings h, table ++ [default_settings h]))
  ∨ (∃ s, settings_rows table h = [s]
          ∧ get_settings table h = Returned (s, table)).
Proof.
  intros Hu. unfold get_settings.
  destruct (settings_rows_unique table h Hu) as [-> | [s ->]];
    [by left | right; by exists s].
Qed.

Lemma settings_unique_snoc table h :
  settings_unique table → settings_rows table h = [] →
  settings_unique (table ++ [default_settings h])
  ∧ settings_rows (table ++ [default_settings h]) h = [default_settings h].
Proof.
  intros Hu Hnil. split.
  - unfold settings_unique. rewrite fmap_app. apply NoDup_app.
    split; [done |]. split; [| apply NoDup_singleton].
    intros x [s [Hx Hs]]%list_elem_of_fmap Hx'. simpl in Hx'.
    apply list_elem_of_singleton in Hx'. subst x.
    assert (Hin : s ∈ settings_rows table h) by by apply settings_rows_spec.
    rewrite Hnil in Hin. by apply elem_of_nil in Hin.
  - unfold settings_rows in *. rewrite filter_app, Hnil. simpl.
    by rewrite filter_cons_True.
Qed.

End Settings.

(** The effect of [get_settings] on a table with one row per tenant. *)
Lemma get_settings_effect (table : list ScheduleSettings.t)
    (h : hub) (Hunique : settings_unique table) :
  ∃ s table',
    get_settings table h = Returned (s, table')
    ∧ ScheduleSettings.hub_id s = h
    ∧ settings_rows table' h = [s]
    ∧ (∀ s0, s0 ∈ table → ScheduleSettings.hub_id s0 = h →
         s = s0 ∧ table' = table)
    ∧ ((∀ s0, s0 ∈ table → ScheduleSettings.hub_id s0 ≠ h) →
         s = default_settings h ∧ table' = table ++ [s])
    ∧ settings_unique table'
    ∧ get_settings table' h = Returned (s, table').
Proof.
  destruct (get_settings_cases table h Hunique) as [[Hnil Hg] | [s [Hs Hg]]].
  - destruct (settings_unique_snoc table h Hunique Hnil) as [Hu' Hrows'].
    exists (default_settings h), (table ++ [default_settings h]).
    split; [done |]. split; [done |]. split; [done |]. split.
    { intros s0 Hin Hh.
      assert (Hin' : s0 ∈ settings_rows table h)
        by by apply settings_rows_spec.
      rewrite Hnil in Hin'. by apply elem_of_nil in Hin'. }
    split; [done |]. split; [done |].
    unfold get_settings. by rewrite Hrows'.
  - assert (Hin : s ∈ settings_rows table h) by (rewrite Hs; left).
    apply settings_rows_spec in Hin as [Hin Hh].
    exists s, table. split; [done |]. split; [done |]. split; [done |].
    split.
    { intros s0 Hin0 Hh0.
      assert (Hin' : s0 ∈ settings_rows table h)
        by by apply settings_rows_spec.
      rewrite Hs in Hin'. apply list_elem_of_singleton in Hin'. by subst. }
    split; [| done].
    intros Hnone. by destruct (Hnone s Hin).
Qed.

(** X14: [get_settings] is a get-or-create.  On a table with at most one
    row per tenant it returns the row of the tenant and leaves the table
    as it is; when the tenant has no row it adds one with the defaults
    (Europe/Madrid, week starting on 1, 30 minutes, no auto close).  The
    table keeps at most one row per tenant, and a second call returns the
    same row and changes nothing. *)
Theorem get_settings_get_or_create (table : list ScheduleSettings.t)
    (h : hub) (Hunique : settings_unique table) :
  ∃ s table',
    get_settings table h = Returned (s, table')
    ∧ ScheduleSettings.hub_id s = h
    ∧ settings_rows table' h = [s]
    ∧ (∀ s0, s0 ∈ table → ScheduleSettings.hub_id s0 = h →
         s = s0 ∧ table' = table)
    ∧ ((∀ s0, s0 ∈ table → ScheduleSettings.hub_id s0 ≠ h) →
         s = default_settings h ∧ table' = table ++ [s])
    ∧ settings_unique table'
    ∧ get_settings table' h = Returned (s, table').
Proof. exact (get_settings_effect table h Hunique). Qed.

Lemma get_settings_get_or_create_witness :
  settings_unique []
  ∧ ∃ s table',
      get_settings [] 1%N = Returned (s, table')
      ∧ ScheduleSettings.hub_id s = 1%N
      ∧ settings_rows table' 1%N = [s]
      ∧ (∀ s0, s0 ∈ [] → ScheduleSettings.hub_id s0 = 1%N →
           s = s0 ∧ table' = [])
      ∧ ((∀ s0, s0 ∈ [] → ScheduleSettings.hub_id s0 ≠ 1%N) →
           s = default_settings 1%N ∧ table' = [] ++ [s])
      ∧ settings_unique table'
      ∧ get_settings table' 1%N = Returned (s, table').
Proof.
  assert (Hu : settings_unique []) by apply NoDup_nil_2.
  split; [exact Hu |].
  exact (get_settings_get_or_create [] 1%N Hu).
Defined.

(** ** Decoding a request body *)

Lemma int_column_holds_iff z :
  int_column_holds z = true ↔ - 2 ^ 63 <= z < 2 ^ 63.
Proof.
  unfold int_column_holds. by rewrite andb_true_iff, Z.leb_le, Z.ltb_lt.
Qed.

Lemma decode_spec {A : Type} (dflt : A) (f : field A) (a : A) :
  decode dflt f = Some a ↔ field_ok f ∧ a = field_value dflt f.
Proof.
  unfold field_ok. destruct f; simpl;
    (split; [intros [= <-] | intros [Hf ->]]; done).
Qed.

Lemma decode_int_spec (dflt : Z) (f : field Z) (z : Z) :
  decode_int dflt f = Some z ↔ int_field_ok f ∧ z = field_value dflt f.
Proof.
  destruct f as [| v |]; simpl;
    [split; [intros [= <-] | intros [_ ->]]; done
    | | split; [done | by intros [[] _]]].
  destruct (int_column_holds v) eqn:Hv.
  - apply int_column_holds_iff in Hv.
    split; [intros [= <-] | intros [_ ->]]; done.
  - split; [done |]. intros [Hr _].
    apply int_column_holds_iff in Hr. congruence.
Qed.

Lemma decode_optional_spec {A : Type} (f : field A) (o : option A) :
  decode_optional f = Some o ↔ field_ok f ∧ o = field_option f.
Proof.
  unfold field_ok. destruct f; simpl;
    (split; [intros [= <-] | intros [Hf ->]]; done).
Qed.

Ltac decoded :=
  repeat match goal with
         | H : decode _ _ = Some _ |- _ => apply decode_spec in H as [? ->]
         | H : decode_int _ _ = Some _ |- _ =>
             apply decode_int_spec in H as [? ->]
         | H : decode_optional _ = Some _ |- _ =>
             apply decode_optional_spec in H as [? ->]
         end.

(** The row that [settings_save] stores: every key of the body that is
    present, and the old value of every key that is absent. *)
Lemma settings_of_payload_spec old data new :
  settings_of_payload old data = Some new ↔
  settings_payload_ok data
  ∧ new = ScheduleSettings.Build (ScheduleSettings.hub_id old)
            (field_value (ScheduleSettings.timezone old) (p_timezone data))
            (field_value (ScheduleSettings.week_starts_on old)
               (p_week_starts_on data))
            (field_value (ScheduleSettings.slot_duration old)
               (p_slot_duration data))
            (field_value (ScheduleSettings.auto_close_enabled old)
               (p_auto_close_enabled data)).
Proof.
  unfold settings_of_payload, settings_payload_ok. split.
  - intros H. repeat case_match; simplify_eq. decoded. done.
  - intros [(Htz & Hw & Hd & Ha) ->].
    rewrite (proj2 (decode_spec _ _ _) (conj Htz eq_refl)).
    rewrite (proj2 (decode_int_spec _ _ _) (conj Hw eq_refl)).
    rewrite (proj2 (decode_int_spec _ _ _) (conj Hd eq_refl)).
    by rewrite (proj2 (decode_spec _ _ _) (conj Ha eq_refl)).
Qed.

Lemma settings_of_payload_none old data :
  settings_of_payload old data = None ↔ ¬ settings_payload_ok data.
Proof.
  split.
  - intros Hn Hok.
    pose proof (proj2 (settings_of_payload_spec old data _)
                  (conj Hok eq_refl)) as Hsome.
    congruence.
  - intros Hno. destruct (settings_of_payload old data) as [new |] eqn:E;
      [| done].
    apply settings_of_payload_spec in E as [Hok _]. done.
Qed.

(** The row that [edit_hours] writes: every key of the body that is
    present, and the default of every key that is absent. *)
Lemma hours_of_payload_spec h data row :
  hours_of_payload h data = Some row ↔
  hours_payload_ok data
  ∧ row = BusinessHours.Build h false
            (field_value 0 (p_day_of_week data))
            (field_value (Time 9 0 0 0) (p_open_time data))
            (field_value (Time 18 0 0 0) (p_close_time data))
            (field_value false (p_is_closed data))
            (field_option (p_break_start data))
            (field_option (p_break_end data)).
Proof.
  unfold hours_of_payload, hours_payload_ok. split.
  - intros H. repeat case_match; simplify_eq. decoded. done.
  - intros [(Hd & Hc & Ho & Hcl & Hbs & Hbe) ->].
    rewrite (proj2 (decode_int_spec _ _ _) (conj Hd eq_refl)).
    rewrite (proj2 (decode_spec _ _ _) (conj Hc eq_refl)).
    rewrite (proj2 (decode_spec _ _ _) (conj Ho eq_refl)).
    rewrite (proj2 (decode_spec _ _ _) (conj Hcl eq_refl)).
    rewrite (proj2 (decode_optional_spec _ _) (conj Hbs eq_refl)).
    by rewrite (proj2 (decode_optional_spec _ _) (conj Hbe eq_refl)).
Qed.

Lemma hours_of_payload_none h data :
  hours_of_payload h data = None ↔ ¬ hours_payload_ok data.
Proof.
  split.
  - intros Hn Hok.
    pose proof (proj2 (hours_of_payload_spec h data _)
                  (conj Hok eq_refl)) as Hsome.
    congruence.
  - intros Hno. destruct (hours_of_payload h data) as [row |] eqn:E;
      [| done].
    apply hours_of_payload_spec in E as [Hok _]. done.
Qed.

(** A concrete body decodes. *)
Ltac payload_ok_tac :=
  repeat split; try discriminate; try exact I;
  apply int_column_holds_iff; reflexivity.

(** ** Saving the settings *)

(** The effect of [settings_save] on a table with one row per tenant. *)
Lemma settings_save_effect (table : list ScheduleSettings.t)
    (h : hub) (Hunique : settings_unique table) :
  ∃ old table1,
    get_settings table h = Returned (old, table1)
    ∧ ScheduleSettings.hub_id old = h
    ∧ (∀ data new, settings_of_payload old data = Some new →
         ∃ table2,
           settings_save table h (JsonObject data) = (true, table2)
           ∧ get_settings table2 h = Returned (new, table2)
           ∧ settings_unique table2
           ∧ (∀ h', h' ≠ h →
                settings_rows table2 h' = settings_rows table h'))
    ∧ (∀ data, settings_of_payload old data = None →
         settings_save table h (JsonObject data) = (false, table1))
    ∧ settings_save table h NotObject = (false, table1)
    ∧ settings_save table h NotJson = (false, table).
Proof.
  destruct (get_settings_effect table h Hunique)
    as (old & table1 & Hg & Hh & Hrows & _ & _ & Hu1 & _).
  exists old, table1. split; [done |]. split; [done |].
  split; [| split; [| split]].
  - intros data new Hnew. exists (save_settings new table1).
    assert (Hhub : ScheduleSettings.hub_id new = h).
    { apply settings_of_payload_spec in Hnew as [_ ->]. done. }
    split.
    { unfold settings_save. by rewrite Hg, Hnew. }
    assert (Hrows2 : settings_rows (save_settings new table1) h = [new]).
    { rewrite save_settings_rows. rewrite decide_True by done.
      by rewrite Hrows. }
    split; [unfold get_settings; by rewrite Hrows2 |].
    split.
    { unfold settings_unique. by rewrite save_settings_hubs. }
    intros h' Hne. rewrite save_settings_rows.
    rewrite decide_False by congruence.
    unfold get_settings in Hg.
    destruct (get (settings_rows table h)); simplify_eq; [done |].
    unfold settings_rows. rewrite filter_app. simpl.
    rewrite filter_cons_False by (simpl; congruence). by rewrite app_nil_r.
  - intros data Hnone. unfold settings_save. by rewrite Hg, Hnone.
  - unfold settings_save. by rewrite Hg.
  - done.
Qed.

(** X15: [settings_save] is a partial update that can fail.  On a table
    with at most one row per tenant, and for a body that is a JSON object
    whose values convert ([int(...)] accepts the two numbers and each fits
    the signed 64-bit column), it succeeds; afterwards the row of the
    tenant holds the value of every key of the body and, for every key
    that is absent, the value it had before (the default when the row is
    new), the rows of other tenants are untouched and the table keeps at
    most one row per tenant.  No value is checked against a smaller range.
    For an object with a value that does not convert, and for a body that
    is no object, it answers success false and the table is as
    [get_settings] left it (a missing row has been created); for a body
    that is not JSON it answers success false and the table is
    untouched. *)
Theorem settings_save_partial_update (table : list ScheduleSettings.t)
    (h : hub) (data : settings_payload) (Hunique : settings_unique table) :
  ∃ old table1,
    get_settings table h = Returned (old, table1)
    ∧ (settings_payload_ok data →
       ∃ table2,
         settings_save table h (JsonObject data) = (true, table2)
         ∧ get_settings table2 h
           = Returned
               (ScheduleSettings.Build h
                  (field_value (ScheduleSettings.timezone old)
                     (p_timezone data))
                  (field_value (ScheduleSettings.week_starts_on old)
                     (p_week_starts_on data))
                  (field_value (ScheduleSettings.slot_duration old)
                     (p_slot_duration data))
                  (field_value (ScheduleSettings.auto_close_enabled old)
                     (p_auto_close_enabled data)),
                table2)
         ∧ settings_unique table2
         ∧ (∀ h', h' ≠ h →
              settings_rows table2 h' = settings_rows table h'))
    ∧ (¬ settings_payload_ok data →
       settings_save table h (JsonObject data) = (false, table1))
    ∧ settings_save table h NotObject = (false, table1)
    ∧ settings_save table h NotJson = (false, table).
Proof.
  destruct (settings_save_effect table h Hunique)
    as (old & table1 & Hg & Hh & Hok & Hfail & Hobj & Hjson).
  exists old, table1. split; [done |].
  split; [| split; [| split]]; [| | done | done].
  - intros Hdata.
    pose proof (proj2 (settings_of_payload_spec old data _)
                  (conj Hdata eq_refl)) as Hnew.
    rewrite Hh in Hnew. exact (Hok data _ Hnew).
  - intros Hdata. apply Hfail. by apply settings_of_payload_none.
Qed.

Lemma settings_save_partial_update_witness :
  settings_unique [default_settings 1%N]
  ∧ settings_payload_ok (SettingsPayload (Value "Asia/Tokyo") Absent Absent Absent)
  ∧ ∃ table2,
      settings_save [default_settings 1%N] 1%N
        (JsonObject (SettingsPayload (Value "Asia/Tokyo") Absent Absent Absent))
      = (true, table2)
      ∧ get_settings table2 1%N
        = Returned (ScheduleSettings.Build 1%N "Asia/Tokyo" 1 30 false, table2).
Proof.
  assert (Hu : settings_unique [default_settings 1%N])
    by apply NoDup_singleton.
  assert (Hok : settings_payload_ok
                  (SettingsPayload (Value "Asia/Tokyo") Absent Absent Absent))
    by payload_ok_tac.
  split; [exact Hu |]. split; [exact Hok |].
  destruct (settings_save_partial_update [default_settings 1%N] 1%N
              (SettingsPayload (Value "Asia/Tokyo") Absent Absent Absent) Hu)
    as (old & table1 & Hg & Hsave & _).
  injection Hg as <- <-.
  destruct (Hsave Hok) as (table2 & Hs & Hget & _).
  exists table2. split; [exact Hs | exact Hget].
Defined.

(** X16: [get_slots] takes its stride from the settings row of the
    tenant of the entry.  After [settings_save] stored a value for
    [slot_duration], whatever integer it is, the generator runs with
    exactly that stride and leaves the settings table as it is; for a
    tenant without a settings row it runs with 30 minutes and the default
    row is created on the way. *)
Theorem get_slots_uses_saved_stride (table : list ScheduleSettings.t)
    (data : settings_payload) (self : BusinessHours.t) (d : Z) (fuel : nat)
    (Hunique : settings_unique table)
    (Hopen : BusinessHours.is_closed self = false) :
  (p_slot_duration data = Value d →
   ∀ table2,
     settings_save table (BusinessHours.hub_id self) (JsonObject data)
     = (true, table2) →
     get_slots_stored fuel table2 self
     = (BusinessHours.while_loop fuel self d
          (BusinessHours.open_time self) [], table2))
  ∧ (settings_rows table (BusinessHours.hub_id self) = [] →
     get_slots_stored fuel table self
     = (BusinessHours.while_loop fuel self 30
          (BusinessHours.open_time self) [],
        table ++ [default_settings (BusinessHours.hub_id self)])).
Proof.
  split.
  - intros Hd table2 Hsave.
    destruct (settings_save_effect table (BusinessHours.hub_id self) Hunique)
      as (old & table1 & _ & _ & Hok & Hfail & _).
    destruct (settings_of_payload old data) as [new |] eqn:Hnew.
    + destruct (Hok data new Hnew) as (table2' & Hsave' & Hg & _).
      rewrite Hsave in Hsave'. injection Hsave' as <-.
      unfold get_slots_stored. rewrite Hopen, Hg.
      unfold BusinessHours.get_slots. rewrite Hopen.
      apply settings_of_payload_spec in Hnew as [_ ->]. simpl.
      by rewrite Hd.
    + rewrite (Hfail data Hnew) in Hsave. discriminate Hsave.
  - intros Hnil. unfold get_slots_stored, get_settings.
    rewrite Hopen, Hnil. simpl.
    unfold BusinessHours.get_slots. by rewrite Hopen.
Qed.

Lemma get_slots_uses_saved_stride_witness :
  settings_unique []
  ∧ BusinessHours.is_closed morning_hours = false
  ∧ get_slots_stored 20 [ScheduleSettings.Build 1%N "Europe/Madrid" 1 60 false]
      morning_hours
    = (BusinessHours.while_loop 20 morning_hours 60 (at_ 9 0) [],
       [ScheduleSettings.Build 1%N "Europe/Madrid" 1 60 false]).
Proof.
  assert (Hu : settings_unique []) by apply NoDup_nil_2.
  split; [exact Hu |]. split; [reflexivity |].
  exact (proj1 (get_slots_uses_saved_stride []
                  (SettingsPayload Absent Absent (Value 60) Absent)
                  morning_hours 60 20%nat Hu eq_refl)
           eq_refl _ eq_refl).
Defined.

(** ** Editing the weekly hours *)

Section WriteHours.

Variable db : database.
Variable h : hub.
Variable row : BusinessHours.t.
Hypothesis Hunique : unique_together db.
Hypothesis Hhub : BusinessHours.hub_id row = h.
Hypothesis Hlive : BusinessHours.is_deleted row = false.

Let same_key (b : BusinessHours.t) : Prop :=
  BusinessHours.hub_id b = h
  ∧ BusinessHours.day_of_week b = BusinessHours.day_of_week row.

Lemma same_key_rows_unique :
  filter same_key (business_hours db) = []
  ∨ ∃ b, filter same_key (business_hours db) = [b].
Proof.
  eapply (filter_unique_key _ _ (h, BusinessHours.day_of_week row));
    [exact Hunique |].
  by intros b [-> ->].
Qed.

(** What [write_hours] leaves in the weekly table: the rows with another
    key, and the new row. *)
Lemma write_hours_rows :
  ∃ db',
    write_hours db h row = (true, db')
    ∧ special_days db' = special_days db
    ∧ overrides db' = overrides db
    ∧ unique_together db'
    ∧ ∀ b, b ∈ business_hours db' ↔
           (b ∈ business_hours db ∧ ¬ same_key b) ∨ b = row.
Proof.
  unfold write_hours. fold same_key.
  destruct same_key_rows_unique as [Hnil | [b0 Hb0]].
  - rewrite Hnil. simpl. eexists. split; [done |]. simpl.
    split; [done |]. split; [done |].
    assert (Hnone : ∀ b, b ∈ business_hours db → ¬ same_key b).
    { intros b Hin Hk.
      assert (Hin' : b ∈ filter same_key (business_hours db))
        by by apply list_elem_of_filter.
      rewrite Hnil in Hin'. by apply elem_of_nil in Hin'. }
    split.
    + unfold unique_together in *. simpl. rewrite fmap_app. apply NoDup_app.
      split; [done |]. split; [| apply NoDup_singleton].
      intros k [b [Hk Hin]]%list_elem_of_fmap Hk'. simpl in Hk'.
      apply list_elem_of_singleton in Hk'. subst k.
      apply (Hnone b Hin). injection Hk' as Hh Hd. split; congruence.
    + intros b. rewrite elem_of_app, list_elem_of_singleton.
      split; [intros [Hin | ->]; [left; split; [done | by apply Hnone] | by right]
             | intros [[Hin _] | ->]; [by left | by right]].
  - rewrite Hb0. simpl. eexists. split; [done |]. simpl.
    split; [done |]. split; [done |].
    assert (Hin0 : b0 ∈ filter same_key (business_hours db))
      by (rewrite Hb0; left).
    apply list_elem_of_filter in Hin0 as [Hk0 Hin0].
    split.
    + unfold unique_together in *. simpl.
      rewrite <- list_fmap_compose.
      erewrite list_fmap_ext; [exact Hunique |].
      intros i b _. simpl. case_decide as Hk; [| done].
      destruct Hk as [Hk1 Hk2]. f_equal; congruence.
    + intros b. rewrite list_elem_of_fmap. split.
      * intros [a [-> Hin]]. case_decide; [by right | by left].
      * intros [[Hin Hk] | ->].
        -- exists b. by rewrite decide_False.
        -- exists b0. by rewrite decide_True.
Qed.

Lemma write_hours_entry db' :
  write_hours db h row = (true, db') →
  unique_together db'
  ∧ entry_for db' h (BusinessHours.day_of_week row) = Some row.
Proof.
  intros He.
  destruct write_hours_rows as (db'' & He' & _ & _ & Hu' & Hrows).
  rewrite He in He'. injection He' as <-.
  split; [done |]. apply entry_for_spec; [done |].
  split; [apply Hrows; by right | done].
Qed.

Lemma write_hours_other db' h' d' :
  write_hours db h row = (true, db') →
  (h', d') ≠ (h, BusinessHours.day_of_week row) →
  entry_for db' h' d' = entry_for db h' d'.
Proof.
  intros He Hne.
  destruct write_hours_rows as (db'' & He' & _ & _ & Hu' & Hrows).
  rewrite He in He'. injection He' as <-.
  apply option_eq. intros b.
  rewrite !entry_for_spec by done. rewrite Hrows.
  unfold weekly_applies. split.
  - intros [[[Hin _] | ->] (Hh & Hd & Hw)]; [by repeat split |].
    destruct Hne. f_equal; congruence.
  - intros [Hin (Hh & Hd & Hw)]. split; [| by repeat split].
    left. split; [done |].
    intros [Hh' Hw']. apply Hne. f_equal; congruence.
Qed.

Lemma write_hours_exceptions db' h' today :
  write_hours db h row = (true, db') →
  find_override db' h' today = find_override db h' today
  ∧ find_special db' h' today = find_special db h' today
  ∧ find_recurring db' h' today = find_recurring db h' today.
Proof.
  intros He.
  destruct write_hours_rows as (db'' & He' & Hsd & Hov & _).
  rewrite He in He'. injection He' as <-.
  unfold find_override, find_special, find_recurring, override_rows,
    special_rows, recurring_rows. by rewrite Hsd, Hov.
Qed.

(** Writing the same row again changes nothing. *)
Lemma write_hours_twice db' :
  write_hours db h row = (true, db') →
  write_hours db' h row = (true, db').
Proof.
  intros He.
  destruct write_hours_rows as (db'' & He' & _ & _ & Hu' & Hrows).
  rewrite He in He'. injection He' as <-.
  assert (Hfilter : filter same_key (business_hours db') = [row]).
  { destruct (filter_unique_key
                (λ b, (BusinessHours.hub_id b, BusinessHours.day_of_week b))
                same_key (h, BusinessHours.day_of_week row)
                (business_hours db') Hu') as [Hnil | [b Hb]].
    - by intros b [-> ->].
    - assert (Hin : row ∈ filter same_key (business_hours db')).
      { apply list_elem_of_filter. split; [done |]. apply Hrows. by right. }
      rewrite Hnil in Hin. by apply elem_of_nil in Hin.
    - assert (Hin : row ∈ filter same_key (business_hours db')).
      { apply list_elem_of_filter. split; [done |]. apply Hrows. by right. }
      rewrite Hb in Hin. apply list_elem_of_singleton in Hin. by subst. }
  unfold write_hours. fold same_key. rewrite Hfilter. simpl.
  f_equal. destruct db' as [rows sd ov]. simpl in *. f_equal.
  rewrite <- (list_fmap_id rows) at 2. apply list_fmap_ext.
  intros i b Hb. simpl. case_decide as Hk; [| done].
  assert (Hin : b ∈ filter same_key rows).
  { apply list_elem_of_filter. split; [done |].
    by eapply list_elem_of_lookup_2. }
  rewrite Hfilter in Hin. by apply list_elem_of_singleton in Hin.
Qed.

End WriteHours.

(** The row of a body belongs to the tenant of the session and is live. *)
Lemma hours_of_payload_row h data row :
  hours_of_payload h data = Some row →
  BusinessHours.hub_id row = h
  ∧ BusinessHours.is_deleted row = false
  ∧ BusinessHours.day_of_week row = field_value 0 (p_day_of_week data).
Proof. intros [_ ->]%hours_of_payload_spec. done. Qed.

(** [edit_hours] either fails and writes nothing, or writes the row of
    the body. *)
Lemma edit_hours_effect db h body ok db' :
  unique_together db →
  edit_hours db h body = (ok, db') →
  (ok = false ∧ db' = db)
  ∨ (∃ data row,
       body = JsonObject data
       ∧ hours_of_payload h data = Some row
       ∧ ok = true
       ∧ write_hours db h row = (true, db')).
Proof.
  intros Hu He. destruct body as [| | data]; simpl in He;
    [left; by simplify_eq | left; by simplify_eq |].
  destruct (hours_of_payload h data) as [row |] eqn:Hrow;
    [| left; by simplify_eq].
  right. exists data, row.
  destruct (hours_of_payload_row h data row Hrow) as (Hh & Hl & _).
  destruct (write_hours_rows db h row Hu Hh) as (db'' & Hw & _).
  rewrite Hw in He. simplify_eq. done.
Qed.

(** X17: [edit_hours] is an upsert on (tenant, day) that can fail.  On a
    weekly table with at most one row per key, and for a body that is a
    JSON object whose values convert ([int(...)] accepts the day and it
    fits the signed 64-bit column, the times are times), it succeeds, and
    afterwards the live weekly entry of the tenant for that day is the row
    built from the body: absent keys take their defaults (day 0, not
    closed, 09:00, 18:00, no break), a row that was soft-deleted is live
    again, and the table keeps at most one row per key.  The row is
    stored as given; [clean] is not consulted and the day is not checked
    against 0 to 6.  For an object with a value that does not convert, for
    a body that is no object and for a body that is not JSON it answers
    success false and writes nothing. *)
Theorem edit_hours_upsert (db : database) (h : hub) (data : hours_payload)
    (Hunique : unique_together db) :
  (hours_payload_ok data →
   ∃ db',
     edit_hours db h (JsonObject data) = (true, db')
     ∧ unique_together db'
     ∧ entry_for db' h (field_value 0 (p_day_of_week data))
       = Some (BusinessHours.Build h false
                 (field_value 0 (p_day_of_week data))
                 (field_value (Time 9 0 0 0) (p_open_time data))
                 (field_value (Time 18 0 0 0) (p_close_time data))
                 (field_value false (p_is_closed data))
                 (field_option (p_break_start data))
                 (field_option (p_break_end data))))
  ∧ (¬ hours_payload_ok data →
     edit_hours db h (JsonObject data) = (false, db))
  ∧ edit_hours db h NotObject = (false, db)
  ∧ edit_hours db h NotJson = (false, db).
Proof.
  split; [| split; [| done]].
  - intros Hok.
    pose proof (proj2 (hours_of_payload_spec h data _) (conj Hok eq_refl))
      as Hrow.
    destruct (hours_of_payload_row h data _ Hrow) as (Hh & Hl & _).
    destruct (write_hours_rows db h _ Hunique Hh) as (db' & Hw & _).
    exists db'. split; [simpl; by rewrite Hrow |].
    exact (write_hours_entry db h _ Hunique Hh Hl db' Hw).
  - intros Hno. apply hours_of_payload_none with (h := h) in Hno.
    simpl. by rewrite Hno.
Qed.

Lemma edit_hours_upsert_witness :
  unique_together (Database [closed_sunday] [] [])
  ∧ hours_payload_ok
      (HoursPayload (Value 6) Absent (Value (at_ 10 0)) (Value (at_ 14 0))
         Absent Absent)
  ∧ ∃ db',
      edit_hours (Database [closed_sunday] [] []) 1%N
        (JsonObject
           (HoursPayload (Value 6) Absent (Value (at_ 10 0))
              (Value (at_ 14 0)) Absent Absent))
      = (true, db')
      ∧ unique_together db'
      ∧ entry_for db' 1%N 6
        = Some (BusinessHours.Build 1%N false 6 (at_ 10 0) (at_ 14 0) false
                  None None).
Proof.
  assert (Hu : unique_together (Database [closed_sunday] [] [])).
  { unfold unique_together. simpl. apply NoDup_singleton. }
  assert (Hok : hours_payload_ok
                  (HoursPayload (Value 6) Absent (Value (at_ 10 0))
                     (Value (at_ 14 0)) Absent Absent))
    by payload_ok_tac.
  split; [exact Hu |]. split; [exact Hok |].
  exact (proj1 (edit_hours_upsert (Database [closed_sunday] [] []) 1%N
                  (HoursPayload (Value 6) Absent (Value (at_ 10 0))
                     (Value (at_ 14 0)) Absent Absent) Hu) Hok).
Defined.

(** X18: [edit_hours] touches one key only, whatever it answers.  When it
    answers success false, and whenever the body is no JSON object, the
    tables are as before.  In every case the special days and the
    overrides are as before and the weekly table keeps at most one row
    per key; for a JSON object the weekly entry of every other tenant or
    day is as before, and [is_open_now] answers as before for every other
    tenant and for every date whose weekday is not the day of the body; a
    body whose day number is outside 0 to 6 changes no answer at all. *)
Theorem edit_hours_frame (db : database) (h : hub)
    (body : request_body hours_payload) (ok : bool) (db' : database)
    (Hunique : unique_together db)
    (Hedit : edit_hours db h body = (ok, db')) :
  (ok = false → db' = db)
  ∧ ((∀ data, body ≠ JsonObject data) → ok = false ∧ db' = db)
  ∧ special_days db' = special_days db
  ∧ overrides db' = overrides db
  ∧ unique_together db'
  ∧ (∀ data, body = JsonObject data →
       (∀ h' d', (h', d') ≠ (h, field_value 0 (p_day_of_week data)) →
          entry_for db' h' d' = entry_for db h' d')
       ∧ (∀ h' today now,
            (h', weekday today) ≠ (h, field_value 0 (p_day_of_week data)) →
            is_open_now db' h' today now = is_open_now db h' today now)
       ∧ (¬ 0 <= field_value 0 (p_day_of_week data) <= 6 →
          ∀ h' today now,
            is_open_now db' h' today now = is_open_now db h' today now)).
Proof.
  destruct (edit_hours_effect db h body ok db' Hunique Hedit)
    as [[-> ->] | (data & row & -> & Hrow & -> & Hw)].
  { repeat split; try done. }
  destruct (hours_of_payload_row h data row Hrow) as (Hh & Hl & Hday).
  destruct (write_hours_rows db h row Hunique Hh)
    as (db'' & Hw' & Hsd & Hov & Hu' & _).
  rewrite Hw in Hw'. injection Hw' as <-.
  split; [done |].
  split; [intros Hno; by destruct (Hno data) |].
  split; [done |]. split; [done |]. split; [done |].
  intros data' [= <-]. rewrite <- Hday.
  assert (Hother : ∀ h' d', (h', d') ≠ (h, BusinessHours.day_of_week row) →
            entry_for db' h' d' = entry_for db h' d').
  { intros h' d' Hne. by apply (write_hours_other db h row Hunique Hh). }
  assert (Hview : ∀ h' today now,
            (h', weekday today) ≠ (h, BusinessHours.day_of_week row) →
            is_open_now db' h' today now = is_open_now db h' today now).
  { intros h' today now Hne.
    destruct (write_hours_exceptions db h row Hunique Hh db' h' today Hw)
      as (Ho & Hs & Hr).
    rewrite !is_open_now_tiers, !get_hours_rows by done.
    by rewrite Ho, Hs, Hr, Hother. }
  split; [done |]. split; [done |].
  intros Hout h' today now. apply Hview.
  pose proof (weekday_range today). intros [= _ Hd]. lia.
Qed.

Lemma edit_hours_frame_witness :
  unique_together db_christmas
  ∧ edit_hours db_christmas 1%N
      (JsonObject (HoursPayload (Value 9) Absent Absent Absent Absent Absent))
    = (true,
       Database
         [thursday_hours; friday_hours; saturday_hours;
          BusinessHours.Build 1%N false 9 (at_ 9 0) (at_ 18 0) false
            None None]
         [christmas] [])
  ∧ ∀ h' today now,
      is_open_now
        (Database
           [thursday_hours; friday_hours; saturday_hours;
            BusinessHours.Build 1%N false 9 (at_ 9 0) (at_ 18 0) false
              None None]
           [christmas] []) h' today now
      = is_open_now db_christmas h' today now.
Proof.
  assert (Hu : unique_together db_christmas).
  { unfold unique_together. simpl.
    repeat (apply NoDup_cons; split;
            [rewrite ?elem_of_cons, elem_of_nil; intros H;
             repeat (destruct H as [H | H]; [discriminate H |]); exact H |]).
    apply NoDup_nil_2. }
  split; [exact Hu |]. split; [reflexivity |].
  destruct (edit_hours_frame db_christmas 1%N
              (JsonObject
                 (HoursPayload (Value 9) Absent Absent Absent Absent Absent))
              true _ Hu eq_refl)
    as (_ & _ & _ & _ & _ & Hobj).
  destruct (Hobj _ eq_refl) as (_ & _ & Hout).
  apply Hout. simpl. lia.
Defined.

(** X19: sending the same body to [edit_hours] a second time gives the
    same answer and changes nothing more, whether the first request
    succeeded or failed. *)
Theorem edit_hours_idempotent (db : database) (h : hub)
    (body : request_body hours_payload) (ok : bool) (db' : database)
    (Hunique : unique_together db)
    (Hedit : edit_hours db h body = (ok, db')) :
  edit_hours db' h body = (ok, db').
Proof.
  destruct (edit_hours_effect db h body ok db' Hunique Hedit)
    as [[-> ->] | (data & row & -> & Hrow & -> & Hw)]; [done |].
  destruct (hours_of_payload_row h data row Hrow) as (Hh & Hl & _).
  simpl. rewrite Hrow.
  exact (write_hours_twice db h row Hunique Hh Hl db' Hw).
Qed.

Lemma edit_hours_idempotent_witness :
  unique_together db_christmas
  ∧ edit_hours db_christmas 1%N
      (JsonObject
         (HoursPayload (Value 3) (Value true) Absent Absent Absent Absent))
    = (true,
       Database
         [BusinessHours.Build 1%N false 3 (at_ 9 0) (at_ 18 0) true None None;
          friday_hours; saturday_hours]
         [christmas] [])
  ∧ edit_hours
      (Database
         [BusinessHours.Build 1%N false 3 (at_ 9 0) (at_ 18 0) true None None;
          friday_hours; saturday_hours]
         [christmas] []) 1%N
      (JsonObject
         (HoursPayload (Value 3) (Value true) Absent Absent Absent Absent))
    = (true,
       Database
         [BusinessHours.Build 1%N false 3 (at_ 9 0) (at_ 18 0) true None None;
          friday_hours; saturday_hours]
         [christmas] []).
Proof.
  assert (Hu : unique_together db_christmas).
  { unfold unique_together. simpl.
    repeat (apply NoDup_cons; split;
            [rewrite ?elem_of_cons, elem_of_nil; intros H;
             repeat (destruct H as [H | H]; [discriminate H |]); exact H |]).
    apply NoDup_nil_2. }
  split; [exact Hu |]. split; [reflexivity |].
  exact (edit_hours_idempotent db_christmas 1%N
           (JsonObject
              (HoursPayload (Value 3) (Value true) Absent Absent Absent
                 Absent))
           true _ Hu eq_refl).
Defined.

(** X20: an edit of today's weekday takes effect at once.  After
    [edit_hours] for the weekday of a date, with a body whose values
    convert, [is_open_now] on that date answers by the four tiers with the
    new row as the weekly entry: the overrides and special days decide as
    before, and where they are transparent the new hours decide. *)
Theorem edit_hours_then_is_open_now (db : database) (h : hub)
    (data : hours_payload) (today : date) (now : time)
    (Hunique : unique_together db)
    (Hok : hours_payload_ok data)
    (Htoday : field_value 0 (p_day_of_week data) = weekday today) :
  ∃ db' st row,
    hours_of_payload h data = Some row
    ∧ edit_hours db h (JsonObject data) = (true, db')
    ∧ is_open_now db' h today now = Returned st
    ∧ (is_open st, reason st)
      = resolve now (find_override db h today) (find_special db h today)
          (find_recurring db h today) (Some row).
Proof.
  pose proof (proj2 (hours_of_payload_spec h data _) (conj Hok eq_refl))
    as Hrow.
  destruct (hours_of_payload_row h data _ Hrow) as (Hh & Hl & Hday).
  destruct (write_hours_rows db h _ Hunique Hh) as (db' & Hw & _).
  destruct (write_hours_entry db h _ Hunique Hh Hl db' Hw) as [Hu' Hentry].
  destruct (write_hours_exceptions db h _ Hunique Hh db' h today Hw)
    as (Ho & Hs & Hr).
  rewrite Hday, Htoday in Hentry.
  exists db'.
  assert (He : edit_hours db h (JsonObject data) = (true, db'))
    by (simpl; by rewrite Hrow).
  rewrite is_open_now_tiers, get_hours_rows, Ho, Hs, Hr, Hentry by done.
  unfold resolve.
  destruct (find_override db h today ≫= override_tier now) as [[b r] |];
    [by eexists _, _ |].
  destruct (find_special db h today ≫= special_tier now) as [[b r] |];
    [by eexists _, _ |].
  destruct (find_recurring db h today ≫= special_tier now) as [[b r] |];
    [by eexists _, _ |].
  eexists _, _. split; [done |]. split; [done |]. split; [reflexivity |].
  symmetry. apply surjective_pairing.
Qed.

Lemma edit_hours_then_is_open_now_witness :
  unique_together db_christmas
  ∧ hours_payload_ok
      (HoursPayload (Value 3) (Value true) Absent Absent Absent Absent)
  ∧ ∃ db' st row,
      hours_of_payload 1%N
        (HoursPayload (Value 3) (Value true) Absent Absent Absent Absent)
      = Some row
      ∧ edit_hours db_christmas 1%N
          (JsonObject
             (HoursPayload (Value 3) (Value true) Absent Absent Absent
                Absent))
        = (true, db')
      ∧ is_open_now db' 1%N (Date 2026 12 24) (at_ 10 0) = Returned st
      ∧ (is_open st, reason st) = (false, "Closed today").
Proof.
  assert (Hu : unique_together db_christmas).
  { unfold unique_together. simpl.
    repeat (apply NoDup_cons; split;
            [rewrite ?elem_of_cons, elem_of_nil; intros H;
             repeat (destruct H as [H | H]; [discriminate H |]); exact H |]).
    apply NoDup_nil_2. }
  assert (Hok : hours_payload_ok
                  (HoursPayload (Value 3) (Value true) Absent Absent Absent
                     Absent))
    by payload_ok_tac.
  split; [exact Hu |]. split; [exact Hok |].
  destruct (edit_hours_then_is_open_now db_christmas 1%N
              (HoursPayload (Value 3) (Value true) Absent Absent Absent
                 Absent)
              (Date 2026 12 24) (at_ 10 0) Hu Hok eq_refl)
    as (db' & st & row & Hrow & He & Hst & Hres).
  exists db', st, row. split; [exact Hrow |]. split; [exact He |].
  split; [exact Hst |].
  injection Hrow as <-. exact Hres.
Defined.

(** ** Validated entries and their slots *)

Lemma time_le_antisym a b : time_le a b → time_le b a → a = b.
Proof.
  intros [H1 | ->] [H2 | H2]; try done.
  by destruct (time_lt_asym a b).
Qed.

(** An entry that passes [clean] has no first slot only when its break
    is the whole day. *)
Lemma first_slot_of_valid self :
  BusinessHours.is_closed self = false →
  BusinessHours.clean self = Valid →
  (first_slot self = None ↔
     BusinessHours.break_start self = Some (BusinessHours.open_time self)
     ∧ BusinessHours.break_end self = Some (BusinessHours.close_time self))
  ∧ (∀ x, first_slot self = Some x →
       x = BusinessHours.open_time self
       ∨ (BusinessHours.break_start self = Some (BusinessHours.open_time self)
          ∧ BusinessHours.break_end self = Some x)).
Proof.
  intros Hc [Hc' | [Hoc Hb]]%clean_valid_iff; [congruence |].
  unfold first_slot, first_slot_from.
  rewrite (proj2 (time_ltb_lt _ _) Hoc).
  destruct (BusinessHours.break_window self) as [[bs be] |] eqn:Hw.
  - apply break_window_Some in Hw as [Hs He].
    destruct (Hb bs be Hs He) as (Hle1 & Hlt & Hle2). rewrite Hs, He.
    destruct (time_leb bs (BusinessHours.open_time self)) eqn:H1; simpl.
    + apply time_leb_le in H1.
      assert (Heq : bs = BusinessHours.open_time self)
        by by apply time_le_antisym.
      subst bs. rewrite (proj2 (time_ltb_lt _ _) Hlt).
      destruct (time_ltb be (BusinessHours.close_time self)) eqn:H2.
      * apply time_ltb_lt in H2. split.
        -- split; [done |]. intros [_ [= ->]]. by apply time_lt_irrefl in H2.
        -- intros x [= <-]. by right.
      * apply time_ltb_false in H2.
        assert (Heq : be = BusinessHours.close_time self)
          by by apply time_le_antisym.
        subst be. split; [by split | done].
    + apply time_leb_false in H1. split; [| intros x [= <-]; by left].
      split; [done |]. intros [[= ->] _]. by apply time_lt_irrefl in H1.
  - split; [| intros x [= <-]; by left]. split; [done |]. intros [Hs He].
    apply break_window_None in Hw as [Hw | Hw]; congruence.
Qed.

(** X21: for a stride between one minute and the largest that
    [timedelta] accepts, an entry that is not closed and passes [clean]
    always has slots, unless its break runs from [open_time] to
    [close_time]; the first slot is [open_time], or [break_end] when the
    break starts at [open_time]. *)
Theorem validated_day_has_slots (self : BusinessHours.t)
    (settings : option ScheduleSettings.t)
    (Hwf : entry_wf self)
    (Hstride : 1 <= stride_of settings <= max_stride)
    (Hopen : BusinessHours.is_closed self = false)
    (Hclean : BusinessHours.clean self = Valid) :
  ∃ l,
    BusinessHours.get_slots enough_fuel settings self = Returned l
    ∧ (l = [] ↔
       BusinessHours.break_start self = Some (BusinessHours.open_time self)
       ∧ BusinessHours.break_end self
         = Some (BusinessHours.close_time self))
    ∧ (∀ x, head l = Some x →
         x = BusinessHours.open_time self
         ∨ (BusinessHours.break_start self
            = Some (BusinessHours.open_time self)
            ∧ BusinessHours.break_end self = Some x)).
Proof.
  destruct (get_slots_returns enough_fuel settings self Hwf (proj1 Hstride)
              (proj2 Hstride)) as [l Hl]; [done |].
  exists l. split; [done |].
  apply get_slots_slot_sequence in Hl; [| done].
  apply slot_sequence_head in Hl. fold (first_slot self) in Hl.
  destruct (first_slot_of_valid self Hopen Hclean) as [Hnone Hsome].
  split; [| by rewrite Hl].
  rewrite <- Hnone, <- Hl. symmetry. apply head_None.
Qed.

Lemma validated_day_has_slots_witness :
  BusinessHours.clean monday_hours = Valid
  ∧ ∃ l,
      BusinessHours.get_slots enough_fuel (settings_with 30) monday_hours
      = Returned l
      ∧ (l = [] ↔
         BusinessHours.break_start monday_hours
         = Some (BusinessHours.open_time monday_hours)
         ∧ BusinessHours.break_end monday_hours
           = Some (BusinessHours.close_time monday_hours))
      ∧ (∀ x, head l = Some x →
           x = BusinessHours.open_time monday_hours
           ∨ (BusinessHours.break_start monday_hours
              = Some (BusinessHours.open_time monday_hours)
              ∧ BusinessHours.break_end monday_hours = Some x)).
Proof.
  assert (Hwf : entry_wf monday_hours) by entry_wf_tac.
  assert (Hstride : 1 <= stride_of (settings_with 30) <= max_stride)
    by (unfold max_stride; simpl; lia).
  split; [reflexivity |].
  exact (validated_day_has_slots monday_hours (settings_with 30) Hwf Hstride
           eq_refl eq_refl).
Defined.

(** An entry that is open at some instant has a first slot. *)
Lemma first_slot_of_open self x :
  BusinessHours.is_open_at self x = true → first_slot self ≠ None.
Proof.
  intros Hx.
  assert (Hc : BusinessHours.is_closed self = false).
  { unfold BusinessHours.is_open_at in Hx.
    by destruct (BusinessHours.is_closed self). }
  apply is_open_at_iff in Hx as [[Hle Hlt] Hout]; [| done].
  apply time_leb_le in Hle. apply time_ltb_lt in Hlt.
  unfold first_slot, first_slot_from.
  rewrite (proj2 (time_ltb_lt _ _) (time_le_lt_trans _ _ _ Hle Hlt)).
  destruct (BusinessHours.break_window self) as [[bs be] |] eqn:Hw; [| done].
  destruct (time_leb bs _ && time_ltb _ be) eqn:Hi; [| done].
  destruct (time_ltb be (BusinessHours.close_time self)) eqn:Hbe; [done |].
  apply time_ltb_false in Hbe. apply andb_true_iff in Hi as [H1 H2].
  apply time_leb_le in H1. apply break_window_Some in Hw as [Hs He].
  destruct Hout. exists bs, be. split; [done |]. split; [done |]. split.
  - apply time_leb_le. destruct H1 as [H1 | ->]; [| done].
    left. by eapply time_lt_le_trans.
  - apply time_ltb_lt. by eapply time_lt_le_trans.
Qed.

(** X22: for a stride between one minute and the largest that
    [timedelta] accepts, [get_slots] returns no slot exactly when
    [is_open_at] holds at no instant: a day that is open at some time
    always offers a slot, and a day that offers a slot is open at that
    time. *)
Theorem no_slots_iff_never_open (self : BusinessHours.t)
    (settings : option ScheduleSettings.t)
    (Hwf : entry_wf self)
    (Hstride : 1 <= stride_of settings <= max_stride) :
  ∃ l,
    BusinessHours.get_slots enough_fuel settings self = Returned l
    ∧ (l = [] ↔ ∀ x, BusinessHours.is_open_at self x = false).
Proof.
  destruct (get_slots_returns enough_fuel settings self Hwf (proj1 Hstride)
              (proj2 Hstride)) as [l Hl]; [done |].
  exists l. split; [done |].
  destruct (BusinessHours.is_closed self) eqn:Hc.
  { apply get_slots_closed in Hl as ->; [| done]. split; [| done].
    intros _ x. unfold BusinessHours.is_open_at. by rewrite Hc. }
  apply get_slots_slot_sequence in Hl; [| done].
  pose proof (slot_sequence_head _ _ _ _ Hl) as Hhead.
  fold (first_slot self) in Hhead. split.
  - intros -> x. apply not_true_is_false. intros Hx.
    by apply first_slot_of_open in Hx.
  - intros Hnever. destruct l as [| x l]; [done |].
    pose proof (slot_sequence_open _ _ Hwf (proj1 Hstride) Hc _ _ Hl
                  (proj1 Hwf) (time_leb_refl _)) as Hall.
    apply Forall_cons in Hall as [Hx _]. by rewrite Hnever in Hx.
Qed.

Lemma no_slots_iff_never_open_witness :
  ∃ l,
    BusinessHours.get_slots enough_fuel (settings_with 30) monday_hours
    = Returned l
    ∧ (l = [] ↔ ∀ x, BusinessHours.is_open_at monday_hours x = false).
Proof.
  assert (Hwf : entry_wf monday_hours) by entry_wf_tac.
  assert (Hstride : 1 <= stride_of (settings_with 30) <= max_stride)
    by (unfold max_stride; simpl; lia).
  exact (no_slots_iff_never_open monday_hours (settings_with 30) Hwf Hstride).
Defined.

(** X23: a stride that [timedelta] refuses (1440000000000 minutes or
    more, or less than -1439999998560) makes [get_slots] raise
    [OverflowError] at its first slot; it still returns the empty list
    when the entry has no first slot. *)
Theorem get_slots_refused_stride (self : BusinessHours.t)
    (settings : option ScheduleSettings.t) (fuel : nat)
    (Hopen : BusinessHours.is_closed self = false)
    (Hrefused : timedelta_fits (stride_of settings) = false)
    (Hfuel : (2 <= fuel)%nat) :
  BusinessHours.get_slots fuel settings self
  = match first_slot self with
    | Some _ => Raised OverflowError
    | None => Returned []
    end.
Proof.
  rewrite get_slots_open by done.
  destruct fuel as [| [| fuel]]; [lia | lia |].
  unfold first_slot, first_slot_from.
  cbn [BusinessHours.while_loop].
  destruct (time_ltb (BusinessHours.open_time self)
              (BusinessHours.close_time self)); [| done].
  unfold BusinessHours.loop_body.
  destruct (BusinessHours.break_window self) as [[bs be] |] eqn:Hw;
    [| by rewrite emit_and_advance_overflow].
  destruct (time_leb bs (BusinessHours.open_time self)
            && time_ltb (BusinessHours.open_time self) be);
    [| by rewrite emit_and_advance_overflow].
  destruct (time_ltb be (BusinessHours.close_time self)); [| done].
  rewrite time_ltb_irrefl, andb_false_r.
  by rewrite emit_and_advance_overflow.
Qed.

Lemma get_slots_refused_stride_witness :
  BusinessHours.get_slots 2 (settings_with 1440000000000) monday_hours
  = Raised OverflowError.
Proof.
  exact (get_slots_refused_stride monday_hours (settings_with 1440000000000)
           2%nat eq_refl eq_refl (le_n 2)).
Defined.
